(** * Faceit CS2 stats bot: page extraction, card rendering, registration

  A shallow embedding of [utils.py], [faceitcs2stats_bot.py] and
  [init_db.py].

  - Python exceptions are values of [exn]; a call that may raise returns
    [result A].
  - Python [str] is [string]; [strip] and [float] are modelled on the ASCII
    range (blanks and digits outside it are not recognised).
  - A page is the document tree BeautifulSoup hands to the program, when
    the parser accepts the markup.
  - Everything outside the process (HTTP, the SQLite file, the clock, font
    files, standard output) is read from an explicit world value or
    threaded as state. *)

From Stdlib Require Import ZArith List String Ascii Bool Lia.
From Stdlib Require Import Floats.SpecFloat.
From stdpp Require Import base option list gmap.
Import ListNotations.

Local Open Scope string_scope.
Local Open Scope Z_scope.

(** ** Python values shared by both modules *)

Module Py.

(** The exception classes the program raises, catches or lets through;
    [SqliteError] is [sqlite3.Error], [RequestException] is
    [requests.exceptions.RequestException], [ParserRejectedMarkup] is
    [bs4.exceptions.ParserRejectedMarkup], [OverflowError] is the builtin,
    no subclass of [sqlite3.Error]. *)
Inductive exn : Type :=
| KeyError (key : string)
| ValueError (msg : string)
| TypeError (msg : string)
| OSError (msg : string)
| RequestException (msg : string)
| ImageLoadError (msg : string)
| SqliteError (msg : string)
| ParserRejectedMarkup (msg : string)
| OverflowError (msg : string)
| Exception (msg : string).

Inductive result (A : Type) : Type :=
| Ok (a : A)
| Raise (e : exn).
Arguments Ok {A} a.
Arguments Raise {A} e.

Definition bind {A B} (r : result A) (k : A -> result B) : result B :=
  match r with
  | Ok a => k a
  | Raise e => Raise e
  end.

Definition is_raise {A} (r : result A) : bool :=
  match r with Ok _ => false | Raise _ => true end.

(** [d[key]] on a dict whose key may be missing. *)
Definition getitem {A} (key : string) (field : option A) : result A :=
  match field with
  | Some a => Ok a
  | None => Raise (KeyError key)
  end.

(** [str.isspace] on one character, ASCII range. *)
Definition isspace (c : ascii) : bool :=
  let n := Z.of_N (N_of_ascii c) in
  ((9 <=? n) && (n <=? 13)) || ((28 <=? n) && (n <=? 32)).

Fixpoint lstrip (s : string) : string :=
  match s with
  | String c r => if isspace c then lstrip r else s
  | EmptyString => EmptyString
  end.

(** Dropping trailing blanks: a character is kept when it is not blank or
    when something non-blank follows it. *)
Fixpoint rstrip (s : string) : string :=
  match s with
  | EmptyString => EmptyString
  | String c r =>
      match rstrip r with
      | EmptyString => if isspace c then EmptyString else String c EmptyString
      | r' => String c r'
      end
  end.

(** [s.strip()] *)
Definition strip (s : string) : string := rstrip (lstrip s).

(** Truthiness of a [str]. *)
Definition truthy (s : string) : bool :=
  match s with EmptyString => false | _ => true end.

End Py.

#[global] Instance result_ret : MRet Py.result := @Py.Ok.
#[global] Instance result_bind : MBind Py.result :=
fun A B k r => Py.bind r k.

(** ** The builtin [float] on strings, and [float < int]

  [float(s)] skips blanks at both ends, accepts underscores between
  digits, reads an optional sign followed by [inf], [infinity], [nan] or a
  decimal literal, and rounds the exact decimal value to the nearest
  binary64 number (ties to even).  Values are [spec_float] at precision
  53. *)

Module PyFloat.

Definition prec : Z := 53.
Definition emax : Z := 1024.

Definition is_digit (c : ascii) : bool :=
  let n := Z.of_N (N_of_ascii c) in (48 <=? n) && (n <=? 57).

Definition digit_val (c : ascii) : Z := Z.of_N (N_of_ascii c) - 48.

Definition lower (c : ascii) : ascii :=
  let n := N_of_ascii c in
  if ((65 <=? n) && (n <=? 90))%N then ascii_of_N (n + 32) else c.

Fixpoint lower_str (s : string) : string :=
  match s with
  | EmptyString => EmptyString
  | String c r => String (lower c) (lower_str r)
  end.

Definition starts_with_digit (s : string) : bool :=
  match s with String d _ => is_digit d | EmptyString => false end.

(** An underscore is legal only between two digits; legal ones vanish. *)
Fixpoint drop_underscores (prev_digit : bool) (s : string) : option string :=
  match s with
  | EmptyString => Some EmptyString
  | String c r =>
      if Ascii.eqb c "_" then
        if prev_digit && starts_with_digit r
        then drop_underscores false r else None
      else String c <$> drop_underscores (is_digit c) r
  end.

(** Reads a run of digits: the number read so far, how many digits were
    read, and what follows. *)
Fixpoint digits (acc cnt : Z) (s : string) : Z * Z * string :=
  match s with
  | String c r =>
      if is_digit c then digits (10 * acc + digit_val c) (cnt + 1) r
      else (acc, cnt, s)
  | EmptyString => (acc, cnt, s)
  end.

Definition sign_of (s : string) : bool * string :=
  match s with
  | String c r =>
      if Ascii.eqb c "-" then (true, r)
      else if Ascii.eqb c "+" then (false, r) else (false, s)
  | EmptyString => (false, s)
  end.

(** What may follow the mantissa: nothing, or [e], a sign and digits. *)
Definition exponent (s : string) : option Z :=
  match s with
  | EmptyString => Some 0
  | String c r =>
      if Ascii.eqb (lower c) "e" then
        let '(neg, r') := sign_of r in
        let '(v, n, rest) := digits 0 0 r' in
        if (0 <? n) && negb (Py.truthy rest)
        then Some (if neg then - v else v) else None
      else None
  end.

(** A decimal literal as (digits as an integer, power of ten). *)
Definition decimal (s : string) : option (Z * Z) :=
  let '(ip, ni, r1) := digits 0 0 s in
  let '(m, nf, r2) :=
    match r1 with
    | String c r => if Ascii.eqb c "." then digits ip 0 r else (ip, 0, r1)
    | EmptyString => (ip, 0, r1)
    end in
  if 0 <? ni + nf then e ← exponent r2; Some (m, e - nf) else None.

(** The binary64 number nearest to [m * 10 ^ e10], with sign [neg]. *)
Definition of_decimal (neg : bool) (m e10 : Z) : spec_float :=
  match m with
  | Zpos p =>
      if 0 <=? e10
      then binary_round prec emax neg (p * Z.to_pos (10 ^ e10))%positive 0
      else SFdiv prec emax (S754_finite neg p 0)
                 (S754_finite false (Z.to_pos (10 ^ (- e10))) 0)
  | _ => S754_zero neg
  end.

(** The blanks [float] skips at both ends of an ASCII string: tab, line
    feed, vertical tab, form feed, carriage return and the space.  The
    separators 28 to 31, blank for [str.strip], are not skipped. *)
Definition is_blank (c : ascii) : bool :=
  let n := Z.of_N (N_of_ascii c) in
  ((9 <=? n) && (n <=? 13)) || (n =? 32).

Fixpoint skip_blanks (s : string) : string :=
  match s with
  | String c r => if is_blank c then skip_blanks r else s
  | EmptyString => EmptyString
  end.

Fixpoint drop_trailing_blanks (s : string) : string :=
  match s with
  | EmptyString => EmptyString
  | String c r =>
      match drop_trailing_blanks r with
      | EmptyString => if is_blank c then EmptyString else String c EmptyString
      | r' => String c r'
      end
  end.

Definition parse (s : string) : option spec_float :=
  body ← drop_underscores false (drop_trailing_blanks (skip_blanks s));
  let '(neg, r) := sign_of body in
  let w := lower_str r in
  if String.eqb w "inf" || String.eqb w "infinity"
  then Some (S754_infinity neg)
  else if String.eqb w "nan" then Some S754_nan
  else '(m, e) ← decimal r; Some (of_decimal neg m e).

(** [float(s)] *)
Definition float (s : string) : Py.result spec_float :=
  match parse s with
  | Some x => Py.Ok x
  | None => Py.Raise (Py.ValueError "could not convert string to float")
  end.

Definition of_int (n : Z) : spec_float := binary_normalize prec emax n 0 false.

(** [x < n] for a float [x] and a small int [n]. *)
Definition lt_int (x : spec_float) (n : Z) : bool := SFltb x (of_int n).

End PyFloat.

(** ** The document tree and the BeautifulSoup queries the program uses *)

Module Bs4.

(** A text node, or an element with its name, the list under its [class]
    attribute, its other attributes and its children.  The document itself
    is an element. *)
#[warnings="-register-all"]
Inductive node : Type :=
| Text (s : string)
| Tag (name : string) (classes : list string)
      (attrs : list (string * string)) (children : list node).

(** Everything below a node, in document order. *)
Fixpoint descendants (n : node) : list node :=
  match n with
  | Text _ => []
  | Tag _ _ _ kids =>
      (fix below (l : list node) : list node :=
         match l with
         | [] => []
         | k :: r => k :: (descendants k ++ below r)%list
         end) kids
  end.

Definition is_tag (name : string) (n : node) : bool :=
  match n with Tag nm _ _ _ => String.eqb nm name | Text _ => false end.

Definition has_class (c : string) (n : node) : bool :=
  match n with
  | Tag _ cls _ _ => existsb (String.eqb c) cls
  | Text _ => false
  end.

Fixpoint assoc (k : string) (l : list (string * string)) : option string :=
  match l with
  | [] => None
  | (k', v) :: r => if String.eqb k k' then Some v else assoc k r
  end.

(** [tag.get(key)] *)
Definition get (key : string) (n : node) : option string :=
  match n with Tag _ _ attrs _ => assoc key attrs | Text _ => None end.

Definition has_id (i : string) (n : node) : bool :=
  match get "id" n with Some v => String.eqb v i | None => false end.

(** [root.find_all(name, class_=c)] *)
Definition find_all (name c : string) (root : node) : list node :=
  List.filter (fun n => is_tag name n && has_class c n) (descendants root).

(** [root.find(name, class_=c)] *)
Definition find (name c : string) (root : node) : option node :=
  head (find_all name c root).

(** [root.find(name, id=i)] *)
Definition find_by_id (name i : string) (root : node) : option node :=
  head (List.filter (fun n => is_tag name n && has_id i n) (descendants root)).

Definition text_of (n : node) : list string :=
  match n with Text s => [s] | Tag _ _ _ _ => [] end.

(** [tag.get_text(strip=True)]: every string below the tag is stripped,
    the empty ones are dropped, the rest are joined. *)
Definition get_text_strip (n : node) : string :=
  String.concat ""
    (List.filter Py.truthy
       (map Py.strip (flat_map text_of (descendants n)))).

End Bs4.

(** ** What Pillow draws *)

Module Pil.

Definition rgb : Type := Z * Z * Z.
Definition rgba : Type := Z * Z * Z * Z.
Definition size : Type := Z * Z.

(** [ImageFont.truetype(path, size)] *)
Record font : Type := { font_path : string; font_size : Z }.

(** An RGBA picture pasted on the card: one fetched from a URL (cut to a
    circle or not) or a solid placeholder. *)
Inductive picture : Type :=
| Loaded (url : string) (dims : size) (circle : bool)
| Placeholder (dims : size) (color : rgba).

Inductive anchor : Type := AnchorDefault | AnchorRightAscender.

(** The calls made on the canvas, in the order they are made. *)
Inductive draw_op : Type :=
| Rectangle (box : Z * Z * Z * Z) (fill outline : rgb) (width : Z)
| DrawText (xy : Z * Z) (text : string) (fill : rgb) (f : font) (a : anchor)
| Line (coords : Z * Z * Z * Z) (fill : rgb) (width : Z)
| Paste (pic : picture) (xy : Z * Z).

(** [Image.new('RGB', (width, height), color)] and what was drawn on it. *)
Record image : Type := {
  img_width : Z;
  img_height : Z;
  background : rgb;
  drawn : list draw_op
}.

End Pil.

(** ** The process: its state, its environment, and effectful calls *)

Module Proc.

Import Py.

(** An HTTP reply: status, the [content-type] header when sent, the body. *)
Record response : Type := {
  status_code : Z;
  content_type : option string;
  body : string
}.

(** A row of table [users]. *)
Record user_row : Type := {
  telegram_id : Z;
  faceit_nickname : string;
  registered_at : Z
}.

(** A value of [user_registration_data]: [{'waiting_for_login': b}]. *)
Record reg_entry : Type := { waiting_for_login : bool }.

Inductive outgoing : Type :=
| SendMessage (chat_id : Z) (text : string)
| SendPhoto (chat_id : Z) (photo : Pil.image) (caption : string).

(** The points at which SQLite can raise.  [ExecuteSelect] is the SELECT
    failing in [cursor.execute]: for a parameter that cannot be bound this
    is the statement failing to be prepared, which comes before the
    binding. *)
Inductive db_step : Type := Connect | ExecuteSelect | ExecuteWrite | Commit.

(** What the environment answers while one call runs:
    - [html_parser] is [BeautifulSoup(text, 'html.parser')]: the tree, or
      the exception raised on markup the parser rejects;
    - [respond url] is what [requests.get(url)] returns or raises;
    - [svg2png_ok] and [image_open_ok] tell whether cairosvg and Pillow
      can read a body, [font_file_ok] whether a font file can be opened;
    - [textbbox] is [draw.textbbox((0, 0), text, font=font)];
    - [sqlite_fails] tells where a call into SQLite raises [sqlite3.Error];
    - [current_timestamp] is SQLite's [CURRENT_TIMESTAMP]. *)
Record world : Type := {
  html_parser : string -> result Bs4.node;
  respond : string -> result response;
  svg2png_ok : string -> bool;
  image_open_ok : string -> bool;
  font_file_ok : string -> bool;
  textbbox : string -> Pil.font -> Z * Z * Z * Z;
  sqlite_fails : db_step -> bool;
  current_timestamp : Z
}.

(** What the process holds between calls: the requests sent so far (latest
    first), the committed rows of [users], the connections not yet closed,
    the module-level dict [user_registration_data], and what was sent to
    Telegram (latest first). *)
Record state : Type := {
  requests : list string;
  users : list user_row;
  open_connections : nat;
  user_registration_data : gmap Z reg_entry;
  outbox : list outgoing
}.

Definition log_request (url : string) (s : state) : state :=
  {| requests := url :: requests s;
     users := users s;
     open_connections := open_connections s;
     user_registration_data := user_registration_data s;
     outbox := outbox s |}.

Definition set_users (rows : list user_row) (s : state) : state :=
  {| requests := requests s;
     users := rows;
     open_connections := open_connections s;
     user_registration_data := user_registration_data s;
     outbox := outbox s |}.

Definition set_open_connections (n : nat) (s : state) : state :=
  {| requests := requests s;
     users := users s;
     open_connections := n;
     user_registration_data := user_registration_data s;
     outbox := outbox s |}.

Definition set_registration (m : gmap Z reg_entry) (s : state) : state :=
  {| requests := requests s;
     users := users s;
     open_connections := open_connections s;
     user_registration_data := m;
     outbox := outbox s |}.

Definition send (o : outgoing) (s : state) : state :=
  {| requests := requests s;
     users := users s;
     open_connections := open_connections s;
     user_registration_data := user_registration_data s;
     outbox := o :: outbox s |}.

(** A call that reads and changes the state and returns or raises. *)
Definition M (A : Type) : Type := state -> result A * state.

Definition ret {A} (a : A) : M A := fun s => (Ok a, s).

Definition raise {A} (e : exn) : M A := fun s => (Raise e, s).

Definition lift {A} (r : result A) : M A := fun s => (r, s).

Definition modify (f : state -> state) : M unit := fun s => (Ok tt, f s).

Definition bind {A B} (m : M A) (k : A -> M B) : M B :=
  fun s =>
    match m s with
    | (Ok a, s') => k a s'
    | (Raise e, s') => (Raise e, s')
    end.

(** [try: m  except <class>: handler], the class given as a test. *)
Definition try_except {A} (m : M A) (caught : exn -> bool)
    (handler : exn -> M A) : M A :=
  fun s =>
    match m s with
    | (Raise e, s') => if caught e then handler e s' else (Raise e, s')
    | done => done
    end.

(** [try: m  finally: cleanup] *)
Definition try_finally {A} (m : M A) (cleanup : state -> state) : M A :=
  fun s => let '(r, s') := m s in (r, cleanup s').

Definition is_ImageLoadError (e : exn) : bool :=
  match e with ImageLoadError _ => true | _ => false end.

Definition is_RequestException (e : exn) : bool :=
  match e with RequestException _ => true | _ => false end.

Definition is_SqliteError (e : exn) : bool :=
  match e with SqliteError _ => true | _ => false end.

(** Every class of [exn] derives from [Exception]. *)
Definition is_Exception (e : exn) : bool := true.

(** [str(e)] *)
Definition message (e : exn) : string :=
  match e with
  | KeyError k => "'" ++ k ++ "'"
  | ValueError m | TypeError m | OSError m | RequestException m
  | ImageLoadError m | SqliteError m | ParserRejectedMarkup m
  | OverflowError m | Exception m => m
  end.

(** [requests.get(url, ...)]: one request goes out. *)
Definition requests_get (w : world) (url : string) : M response :=
  fun s => (respond w url, log_request url s).

(** [response.raise_for_status()] *)
Definition raise_for_status (r : response) : result unit :=
  if (400 <=? status_code r) && (status_code r <? 600)
  then Raise (RequestException "HTTPError")
  else Ok tt.

End Proc.

#[global] Instance M_ret : MRet Proc.M := @Proc.ret.
#[global] Instance M_bind : MBind Proc.M := fun A B k m => Proc.bind m k.

(** ** utils.py: extraction *)

Module Utils.

Import Py Bs4 Pil Proc.

(** One [{title, value}] row of a block. *)
Record item : Type := { item_title : string; item_value : string }.

(** The dict built for one stats block: [title] and [main_value] are
    present only when their span was found. *)
Record stat_block : Type := {
  title : option string;
  main_value : option string;
  items : list item
}.

(** The dict returned by [parse_faceitanalyser]: the three URLs are keys
    that may be missing. *)
Record player_stats : Type := {
  avatar_url : option string;
  flag_url : option string;
  level_url : option string;
  name : string;
  elo : string;
  view1_stats : list stat_block;
  view2_stats : list stat_block
}.

Definition enumerate {A} (l : list A) : list (nat * A) :=
  combine (seq 0 (length l)) l.

Definition parse_block (block : node) : stat_block :=
  let item_titles := find_all "span" "stats_totals_block_item_title" block in
  let item_spans := find_all "span" "stats_totals_block_item_value" block in
  {| title :=
       get_text_strip <$> find "span" "stats_totals_block_title_text" block;
     main_value :=
       get_text_strip <$>
         find "span" "stats_totals_block_main_value_span" block;
     items :=
       map (fun '(title_span, value_span) =>
              {| item_title := get_text_strip title_span;
                 item_value := get_text_strip value_span |})
           (combine item_titles item_spans) |}.

Definition parse_view_stats_div (div : node) : list stat_block :=
  map parse_block (find_all "div" "stats_totals_block_wrapper" div).

Definition SITE : string := "https://faceitanalyser.com/".

(** [img.get('src')] when it is a non-empty string. *)
Definition src_of (img : node) : option string :=
  match get "src" img with
  | Some s => if truthy s then Some s else None
  | None => None
  end.

(** One turn of the loop over [enumerate(level_images[:2])], on the pair
    of keys [(flag_url, level_url)]. *)
Definition record_level_image (urls : option string * option string)
    (entry : nat * node) : option string * option string :=
  let '(i, level_img) := entry in
  match src_of level_img with
  | Some image_url =>
      if Nat.eqb i 0 then (Some (SITE ++ image_url), snd urls)
      else (fst urls, Some (SITE ++ image_url))
  | None => urls
  end.

Definition level_urls (soup : node) : option string * option string :=
  let level_images := find_all "img" "stats_profile_level_image" soup in
  fold_left record_level_image (enumerate (take 2 level_images)) (None, None).

(** [None] is Python's [None].  The call that builds the tree stands
    outside any [try]: what the parser raises leaves the function.  The
    queries on the tree do not raise. *)
Definition parse_faceitanalyser (w : world) (html_content : string)
  : result (option player_stats) :=
  soup ← html_parser w html_content;
  let avatar := find "img" "stats_profile_avatar" soup ≫= src_of in
  let urls := level_urls soup in
  Ok (name_span ← find "span" "stats_profile_name_span" soup;
      elo_span ← find "span" "stats_profile_elo_span" soup;
      div1 ← find_by_id "div" "view1_stats" soup;
      div2 ← find_by_id "div" "view2_stats" soup;
      Some {| avatar_url := avatar;
              flag_url := fst urls;
              level_url := snd urls;
              name := get_text_strip name_span;
              elo := get_text_strip elo_span;
              view1_stats := parse_view_stats_div div1;
              view2_stats := parse_view_stats_div div2 |}).


(** ** utils.py: rendering *)

Definition WARNING_TINT : rgb := (230, 118, 118).
Definition POSITIVE_TINT : rgb := (214, 243, 148).

Definition in_list (s : string) (l : list string) : bool :=
  existsb (String.eqb s) l.

(** Lines 107-120 of [draw_stat_table], over the string-to-float conversion
  in use: [and] evaluates its right operand only when the left one holds. *)
Definition fill_color_with (to_float : string -> result spec_float)
    (stat_data : stat_block) : result rgb :=
  title_ ← getitem "title" (title stat_data);
  is_low_kdr_or_rating ←
    (if in_list title_ ["Avg. KDR"; "FA Rating"]
     then v ← getitem "main_value" (main_value stat_data);
          x ← to_float v; Ok (PyFloat.lt_int x 1)
     else Ok false);
  is_low_winrate ←
    (if String.eqb title_ "Winrate"
     then v ← getitem "main_value" (main_value stat_data);
          x ← to_float v; Ok (PyFloat.lt_int x 50)
     else Ok false);
  Ok (if is_low_kdr_or_rating || is_low_winrate
      then WARNING_TINT else POSITIVE_TINT).

Definition fill_color : stat_block -> result rgb :=
  fill_color_with PyFloat.float.

Definition bbox_width (w : world) (text : string) (f : font) : Z :=
  let '(x0, _, x1, _) := textbbox w text f in x1 - x0.

(** The two [draw.text] calls of one turn of the loop over the items. *)
Definition item_row (x y table_width : Z) (stat_value_font : font)
    (entry : nat * item) : list draw_op :=
  let '(i, it) := entry in
  let item_y := y + 95 + Z.of_nat i * 25 in
  [ DrawText (x + 20, item_y) (item_title it) (200, 200, 200)
             stat_value_font AnchorDefault;
    DrawText (x + table_width - 20, item_y) (item_value it) (255, 255, 255)
             stat_value_font AnchorRightAscender ].

(** The calls [draw_stat_table] makes on [draw], or the exception that
  ends it. *)
Definition draw_stat_table (w : world) (x y : Z) (stat_data : stat_block)
    (table_width table_height : Z)
    (title_font stat_title_font stat_value_font : font)
    : result (list draw_op) :=
  title_ ← getitem "title" (title stat_data);
  let title_width := bbox_width w title_ title_font in
  fill ← fill_color stat_data;
  main ← getitem "main_value" (main_value stat_data);
  let main_value_width := bbox_width w main stat_title_font in
  Ok ([ Rectangle (x, y, x + table_width, y + table_height)
                  (45, 45, 45) (80, 80, 80) 2;
        DrawText (x + (table_width - title_width) / 2, y + 15) title_
                 (255, 255, 255) title_font AnchorDefault;
        DrawText (x + (table_width - main_value_width) / 2, y + 50) main
                 fill stat_title_font AnchorDefault;
        Line (x + 20, y + 85, x + table_width - 20, y + 85)
             (100, 100, 100) 1 ]
      ++ flat_map (item_row x y table_width stat_value_font)
                  (enumerate (items stat_data)))%list.

(** [sub in s] *)
Fixpoint contains (sub s : string) : bool :=
  String.prefix sub s ||
  match s with
  | EmptyString => false
  | String _ r => contains sub r
  end.

(** [s.endswith(suffix)] *)
Definition endswith (s suffix : string) : bool :=
  let n := String.length s in
  let k := String.length suffix in
  (k <=? n)%nat && String.eqb (String.substring (n - k) k s) suffix.

(** [load_image_safe(url, default_size)]: the picture, or
  [ImageLoadError]; every exception raised inside is turned into one. *)
Definition load_image_safe (w : world) (url : string) (default_size : size)
    : M picture :=
  try_except
    (response ← requests_get w url;
     _ ← lift (raise_for_status response);
     let ctype :=
       PyFloat.lower_str (default "" (content_type response)) in
     if contains "svg" ctype || endswith url ".svg"
     then
       if svg2png_ok w (body response)
       then ret (Loaded url default_size false)
       else raise (ImageLoadError ("Ошибка конвертации SVG " ++ url))
     else
       if image_open_ok w (body response)
       then ret (Loaded url default_size false)
       else raise (ImageLoadError
                     ("Ошибка обработки изображения " ++ url)))
    is_Exception
    (fun e =>
       if is_RequestException e
       then raise (ImageLoadError
                     ("Ошибка HTTP запроса к " ++ url ++ ": " ++ message e))
       else raise (ImageLoadError
                     ("Неизвестная ошибка при загрузке " ++ url ++ ": "
                      ++ message e))).

(** [create_placeholder(size, color)] *)
Definition create_placeholder (dims : size) (color : rgba) : picture :=
  Placeholder dims color.

(** [avatar_img.putalpha(mask)] with the elliptic mask. *)
Definition putalpha_circle (p : picture) : picture :=
  match p with
  | Loaded url dims _ => Loaded url dims true
  | Placeholder dims color => Placeholder dims color
  end.

(** [ImageFont.truetype(path, size)] *)
Definition truetype (w : world) (path : string) (sz : Z) : result font :=
  if font_file_ok w path
  then Ok {| font_path := path; font_size := sz |}
  else Raise (OSError "cannot open resource").

(** One of the two loops over [enumerate(data[view])]. *)
Fixpoint draw_tables (w : world) (table_y : Z)
    (title_font stat_title_font stat_value_font : font)
    (tables : list (nat * stat_block)) : result (list draw_op) :=
  match tables with
  | [] => Ok []
  | (i, stat_data) :: rest =>
      let x := 50 + Z.of_nat i * (350 + 30) in
      ops ← draw_stat_table w x table_y stat_data 350 180
                            title_font stat_title_font stat_value_font;
      more ← draw_tables w table_y title_font stat_title_font stat_value_font
                         rest;
      Ok (ops ++ more)%list
  end.

Definition WHITE : rgb := (255, 255, 255).

(** The body of the outer [try] of [generate_player_card]: what is drawn on
  the 1600 x 820 canvas. *)
Definition card_body (w : world) (data : player_stats) : M (list draw_op) :=
  let width := 1600 in
  let montserrat_medium := "Montserrat-Font/Montserrat-Medium.ttf" in
  let montserrat_bold := "Montserrat-Font/Montserrat-Bold.ttf" in
  name_font ← lift (truetype w montserrat_bold 40);
  elo_font ← lift (truetype w montserrat_medium 36);
  title_font ← lift (truetype w montserrat_bold 28);
  stat_title_font ← lift (truetype w montserrat_bold 24);
  stat_value_font ← lift (truetype w montserrat_medium 22);
  section_font ← lift (truetype w montserrat_bold 32);
  avatar ←
    try_except
      (url ← lift (getitem "avatar_url" (avatar_url data));
       avatar_img ← load_image_safe w url (150, 150);
       ret (Paste (putalpha_circle avatar_img) (50, 50)))
      is_ImageLoadError
      (fun _ =>
         ret (Paste (create_placeholder (150, 150) (100, 100, 100, 255))
                    (50, 50)));
  flag ←
    try_except
      (url ← lift (getitem "flag_url" (flag_url data));
       flag_img ← load_image_safe w url (60, 45);
       ret (Paste flag_img (220, 55)))
      is_ImageLoadError
      (fun _ =>
         ret (Paste (create_placeholder (60, 45) (200, 100, 100, 255))
                    (220, 55)));
  level ←
    try_except
      (url ← lift (getitem "level_url" (level_url data));
       level_img ← load_image_safe w url (70, 70);
       ret (Paste level_img (220, 110)))
      is_ImageLoadError
      (fun _ =>
         ret (Paste (create_placeholder (45, 45) (100, 200, 100, 255))
                    (220, 110)));
  let table_height := 180 in
  let start_y := 300 in
  let section_margin := 40 in
  let title_table_margin := 5 in
  let section1_title_y := start_y - 40 in
  let table_start_y := section1_title_y + 50 + title_table_margin in
  tables1 ← lift (draw_tables w table_start_y title_font stat_title_font
                              stat_value_font (enumerate (view1_stats data)));
  let section2_title_y := table_start_y + table_height + section_margin in
  let table_start_y2 := section2_title_y + 50 + title_table_margin in
  tables2 ← lift (draw_tables w table_start_y2 title_font stat_title_font
                              stat_value_font (enumerate (view2_stats data)));
  ret ([avatar; flag; level;
        DrawText (295, 55) (name data) WHITE name_font AnchorDefault;
        DrawText (295, 120) (elo data) WHITE elo_font AnchorDefault;
        Line (40, 230, width - 40, 230) (100, 100, 100) 1;
        DrawText (50, section1_title_y) "Статистика за всё время"
                 WHITE section_font AnchorDefault]
       ++ tables1
       ++ [DrawText (50, section2_title_y)
                    "Статистика за последние 50 матчей"
                    WHITE section_font AnchorDefault]
       ++ tables2)%list.

(** [generate_player_card(data)]: the image, or [Exception] when anything
  in the body raised. *)
Definition generate_player_card (w : world) (data : player_stats) : M image :=
  try_except
    (ops ← card_body w data;
     ret {| img_width := 1600; img_height := 820;
            background := (30, 30, 30); drawn := ops |})
    is_Exception
    (fun e =>
       raise (Exception ("Ошибка при генерации карточки: " ++ message e))).

(** ** utils.py: fetching *)

(** [download_page(url)].  The handler's [raise] is given a [str], which
  Python answers with [TypeError]. *)
Definition download_page (w : world) (url : string) : M string :=
  try_except
    (response ← requests_get w url;
     _ ← lift (raise_for_status response);
     ret (body response))
    is_RequestException
    (fun _ => raise (TypeError "exceptions must derive from BaseException")).

End Utils.

(** ** faceitcs2stats_bot.py *)

Module Bot.

Import Py Pil Proc Utils.

(** The texts of [constants.py] the two registration handlers send. *)
Record constants : Type := {
  REGISTRATION_MSG : string;
  NICKNAME_NOT_FOUND : string;
  REGISTRATION_OK : string
}.

(** An incoming text message, as far as the handlers read it. *)
Record message : Type := {
  chat_id : Z;
  chat_type : string;
  from_user_id : Z;
  text : string
}.

Definition get_html_page_by_nickname (w : world) (nickname : string)
    : M string :=
  download_page w ("https://faceitanalyser.com/stats/" ++ nickname ++ "/cs2").

Definition get_user_stat (w : world) (nickname : string)
    : M (option player_stats) :=
  faceitanalyser_html ← get_html_page_by_nickname w nickname;
  lift (parse_faceitanalyser w faceitanalyser_html).

(** *** The [users] table

  A connection works on its own copy of the rows; [commit] publishes the
  copy, and closing without a commit drops it. *)

(** [sqlite3.connect(DB_PATH)] *)
Definition sqlite3_connect (w : world) : M (list user_row) :=
  fun s =>
    if sqlite_fails w Connect
    then (Raise (SqliteError "unable to open database file"), s)
    else (Ok (users s), set_open_connections (S (open_connections s)) s).

(** [conn.close()] *)
Definition close_connection (s : state) : state :=
  set_open_connections (Nat.pred (open_connections s)) s.

(** A call into SQLite that this environment lets through or fails. *)
Definition sql_step (w : world) (step : db_step) : M unit :=
  if sqlite_fails w step then raise (SqliteError "database error") else ret tt.

Definition has_id (id : Z) (r : user_row) : bool := telegram_id r =? id.

(** [SELECT ... FROM users WHERE telegram_id = ?] *)
Definition select_by_id (id : Z) (rows : list user_row) : list user_row :=
  List.filter (has_id id) rows.

(** [cursor.fetchone()] *)
Definition fetchone (found : list user_row) : option user_row := head found.

(** [UPDATE users SET faceit_nickname = ?, registered_at =
  CURRENT_TIMESTAMP WHERE telegram_id = ?] *)
Definition update_user (now : Z) (id : Z) (nickname : string)
    (rows : list user_row) : list user_row :=
  map (fun r =>
         if has_id id r
         then {| telegram_id := telegram_id r;
                 faceit_nickname := nickname;
                 registered_at := now |}
         else r) rows.

(** [INSERT INTO users (telegram_id, faceit_nickname) VALUES (?, ?)]:
  [registered_at] takes its default, and the primary key refuses a second
  row with the same [telegram_id]. *)
Definition insert_user (now : Z) (id : Z) (nickname : string)
    (rows : list user_row) : result (list user_row) :=
  if existsb (has_id id) rows
  then Raise (SqliteError "UNIQUE constraint failed: users.telegram_id")
  else Ok (rows ++ [{| telegram_id := id;
                       faceit_nickname := nickname;
                       registered_at := now |}])%list.

(** Binding a Python [int] to a [?] of a statement.  SQLite's INTEGER has
  64 bits; for any other [int], [cursor.execute] raises [OverflowError]
  once the statement is prepared and before it runs. *)
Definition bind_int (n : Z) : M unit :=
  if (- 2 ^ 63 <=? n) && (n <? 2 ^ 63) then ret tt
  else raise (OverflowError
                "Python int too large to convert to SQLite INTEGER").

Definition get_faceit_nickname_from_db (w : world) (id : Z)
    : M (option string) :=
  try_except
    (conn ← sqlite3_connect w;
     try_finally
       (_ ← sql_step w ExecuteSelect;
        _ ← bind_int id;
        match fetchone (select_by_id id conn) with
        | Some row => ret (Some (faceit_nickname row))
        | None => ret None
        end)
       close_connection)
    is_SqliteError
    (fun _ => ret None).

Definition register_user (w : world) (id : Z) (nickname : string)
    : M (option player_stats) :=
  user_stats ← get_user_stat w nickname;
  match user_stats with
  | None => ret None
  | Some stats =>
      try_except
        (conn ← sqlite3_connect w;
         try_finally
           (_ ← sql_step w ExecuteSelect;
            _ ← bind_int id;
            let existing_user := fetchone (select_by_id id conn) in
            _ ← sql_step w ExecuteWrite;
            conn' ←
              match existing_user with
              | Some _ =>
                  ret (update_user (current_timestamp w) id nickname conn)
              | None =>
                  lift (insert_user (current_timestamp w) id nickname conn)
              end;
            _ ← sql_step w Commit;
            _ ← modify (set_users conn');
            ret (Some stats))
           close_connection)
        is_SqliteError
        (fun _ => ret None)
  end.

(** [send_high_quality_photo(chat_id, image, caption)].  Sending to
    Telegram is recorded in the outbox. *)
Definition send_high_quality_photo (chat : Z) (img : image)
    (caption : string) : M unit :=
  modify (send (SendPhoto chat img caption)).

(** *** The registration dialogue *)

Definition set_waiting (id : Z) (b : bool) (s : state) : state :=
  set_registration
    (<[ id := {| waiting_for_login := b |} ]> (user_registration_data s)) s.

(** Handler of [/register] in a private chat. *)
Definition start_registration (c : constants) (m : message) : M unit :=
  let user_id := from_user_id m in
  _ ← modify (set_waiting user_id true);
  modify (send (SendMessage (chat_id m) (REGISTRATION_MSG c))).

(** The filter in front of [handle_registration_input]. *)
Definition waits_for_login (s : state) (m : message) : bool :=
  String.eqb (chat_type m) "private" &&
  match user_registration_data s !! from_user_id m with
  | Some entry => waiting_for_login entry
  | None => false
  end.

(** [Some false] is [return False]; [None] is falling off the end. *)
Definition handle_registration_input (w : world) (c : constants)
    (m : message) : M (option bool) :=
  let user_id := from_user_id m in
  let nickname := strip (text m) in
  user_data ← register_user w user_id nickname;
  match user_data with
  | None =>
      _ ← modify (send (SendMessage (chat_id m) (NICKNAME_NOT_FOUND c)));
      ret (Some false)
  | Some data =>
      _ ← modify (set_waiting user_id false);
      stat_img ← generate_player_card w data;
      _ ← send_high_quality_photo (chat_id m) stat_img (REGISTRATION_OK c);
      ret None
  end.

End Bot.

(** ** What the statements below observe *)

Module Obs.

Import Py Pil Proc Utils.

(** The fill of the third call made on the canvas, the one that writes the
  main value of a table. *)
Definition main_value_tint (ops : list draw_op) : option rgb :=
  match nth_error ops 2 with
  | Some (DrawText _ _ c _ _) => Some c
  | _ => None
  end.

Definition tint_of (r : result (list draw_op)) : option rgb :=
  match r with Ok ops => main_value_tint ops | Raise _ => None end.

(** "The parsed numeric value is below [n]". *)
Definition below (v : string) (n : Z) : bool :=
  match PyFloat.float v with
  | Ok x => PyFloat.lt_int x n
  | Raise _ => false
  end.

(** The threshold rule in the words of the specification. *)
Definition warning_rule (t v : string) : bool :=
  ((String.eqb t "Avg. KDR" || String.eqb t "FA Rating") && below v 1)
  || (String.eqb t "Winrate" && below v 50).

Definition thresholded (t : string) : Prop :=
  t = "Avg. KDR" \/ t = "FA Rating" \/ t = "Winrate".

Definition block (t v : string) (its : list item) : stat_block :=
  {| title := Some t; main_value := Some v; items := its |}.



(** What the loop over the level images records for one of them: the
  site's origin followed by its [src], when that is a non-empty string. *)
Definition prefixed (img : option Bs4.node) : option string :=
  (fun image_url => SITE ++ image_url) <$> (img ≫= src_of).

(** The three placeholders, where [generate_player_card] pastes them. *)
Definition placeholders : list draw_op :=
  [ Paste (Placeholder (150, 150) (100, 100, 100, 255)) (50, 50);
    Paste (Placeholder (60, 45) (200, 100, 100, 255)) (220, 55);
    Paste (Placeholder (45, 45) (100, 200, 100, 255)) (220, 110) ].

(** The key constraint of table [users]: no two rows share a
  [telegram_id]. *)
Definition primary_key (rows : list user_row) : Prop :=
  NoDup (map telegram_id rows).

Definition user (id : Z) (nickname : string) (now : Z) : user_row :=
  {| telegram_id := id; faceit_nickname := nickname; registered_at := now |}.

(** The address [get_html_page_by_nickname] asks for. *)
Definition stats_url (nickname : string) : string :=
  "https://faceitanalyser.com/stats/" ++ nickname ++ "/cs2".

(** Insert-or-update of the row of [id], as the specification has it. *)
Definition upsert (now : Z) (id : Z) (nickname : string)
    (rows : list user_row) : list user_row :=
  match head (Bot.select_by_id id rows) with
  | Some _ => Bot.update_user now id nickname rows
  | None => (rows ++ [user id nickname now])%list
  end.

(** SQLite raises at no point of the call. *)
Definition storage_works (w : world) : Prop :=
  forall step, sqlite_fails w step = false.

(** The integers SQLite binds to a [?]: the signed 64-bit range, which
  holds every Telegram user id. *)
Definition int64 (id : Z) : Prop := - 2 ^ 63 <= id < 2 ^ 63.

End Obs.

(** ** Sample pages and environments *)

Module Sample.

Import Py Bs4 Pil Proc Utils.

Definition span (cls txt : string) : node := Tag "span" [cls] [] [Text txt].

Definition img (cls src : string) : node := Tag "img" [cls] [("src", src)] [].

(** A block with three item titles and two item values. *)
Definition winrate_block : node :=
  Tag "div" ["stats_totals_block_wrapper"] []
    [ span "stats_totals_block_title_text" "Winrate";
      span "stats_totals_block_main_value_span" " 49 ";
      span "stats_totals_block_item_title" "Matches";
      span "stats_totals_block_item_value" "120";
      span "stats_totals_block_item_title" "Wins";
      span "stats_totals_block_item_value" "59";
      span "stats_totals_block_item_title" "Losses" ].

Definition view (id : string) (blocks : list node) : node :=
  Tag "div" [] [("id", id)] blocks.

Definition document (kids : list node) : node := Tag "[document]" [] [] kids.

(** A profile page with everything the extractor looks for. *)
Definition page : node :=
  document
    [ img "stats_profile_avatar" "https://cdn.example/avatar.png";
      img "stats_profile_level_image" "static/flags/kz.svg";
      img "stats_profile_level_image" "static/levels/10.svg";
      span "stats_profile_name_span" "s1mple";
      span "stats_profile_elo_span" "3021 ELO";
      view "view1_stats" [winrate_block];
      view "view2_stats" [] ].

(** The same page without the avatar element. *)
Definition page_without_avatar : node :=
  document
    [ img "stats_profile_level_image" "static/flags/kz.svg";
      img "stats_profile_level_image" "static/levels/10.svg";
      span "stats_profile_name_span" "s1mple";
      span "stats_profile_elo_span" "3021 ELO";
      view "view1_stats" [];
      view "view2_stats" [] ].

(** Both spans and both containers are there, the name span is empty. *)
Definition page_with_empty_name : node :=
  document
    [ Tag "span" ["stats_profile_name_span"] [] [];
      span "stats_profile_elo_span" "3021 ELO";
      view "view1_stats" [];
      view "view2_stats" [] ].

(** The first level image already carries an absolute URL. *)
Definition page_with_absolute_flag : node :=
  document
    [ img "stats_profile_level_image" "https://cdn.example/flags/kz.svg";
      img "stats_profile_level_image" "static/levels/10.svg";
      span "stats_profile_name_span" "s1mple";
      span "stats_profile_elo_span" "3021 ELO";
      view "view1_stats" [];
      view "view2_stats" [] ].

(** A page of the site for a nickname it does not know. *)
Definition page_not_found : node :=
  document [ Tag "h1" [] [] [Text "Player not found"] ].

Definition reply (txt : string) : response :=
  {| status_code := 200; content_type := Some "text/html"; body := txt |}.

(** Ten units of width for each character. *)
Definition metrics (txt : string) (f : font) : Z * Z * Z * Z :=
  (0, 0, Z.of_nat (String.length txt) * 10, font_size f).

(** Every request is answered, every conversion works, at time [now]. *)
Definition online (doc : node) (now : Z) : world :=
  {| html_parser := fun _ => Ok doc;
     respond := fun _ => Ok (reply "<html>");
     svg2png_ok := fun _ => true;
     image_open_ok := fun _ => true;
     font_file_ok := fun _ => true;
     textbbox := metrics;
     sqlite_fails := fun _ => false;
     current_timestamp := now |}.

(** No request gets through. *)
Definition offline (doc : node) : world :=
  {| html_parser := fun _ => Ok doc;
     respond := fun _ => Raise (RequestException "ConnectionError");
     svg2png_ok := fun _ => true;
     image_open_ok := fun _ => true;
     font_file_ok := fun _ => true;
     textbbox := metrics;
     sqlite_fails := fun _ => false;
     current_timestamp := 0 |}.

(** The site answers 404. *)
Definition missing_page (doc : node) : world :=
  {| html_parser := fun _ => Ok doc;
     respond := fun _ =>
       Ok {| status_code := 404; content_type := None; body := "" |};
     svg2png_ok := fun _ => true;
     image_open_ok := fun _ => true;
     font_file_ok := fun _ => true;
     textbbox := metrics;
     sqlite_fails := fun _ => false;
     current_timestamp := 0 |}.

(** The site answers with markup that [html.parser] rejects: a marked
    section with an unknown keyword. *)
Definition rejected_markup : string := "<![UNKNOWN[]]>".

Definition strict_parser (doc : node) : world :=
  {| html_parser := fun html =>
       if String.eqb html rejected_markup
       then Raise (ParserRejectedMarkup
                     "unknown status keyword 'UNKNOWN' in marked section")
       else Ok doc;
     respond := fun _ => Ok (reply rejected_markup);
     svg2png_ok := fun _ => true;
     image_open_ok := fun _ => true;
     font_file_ok := fun _ => true;
     textbbox := metrics;
     sqlite_fails := fun _ => false;
     current_timestamp := 0 |}.

(** The database file cannot be opened. *)
Definition no_database (doc : node) : world :=
  {| html_parser := fun _ => Ok doc;
     respond := fun _ => Ok (reply "<html>");
     svg2png_ok := fun _ => true;
     image_open_ok := fun _ => true;
     font_file_ok := fun _ => true;
     textbbox := metrics;
     sqlite_fails := fun _ => true;
     current_timestamp := 0 |}.

Definition fresh : state :=
  {| requests := [];
     users := [];
     open_connections := 0;
     user_registration_data := ∅;
     outbox := [] |}.

Definition bold28 : font :=
  {| font_path := "Montserrat-Font/Montserrat-Bold.ttf"; font_size := 28 |}.
Definition bold24 : font :=
  {| font_path := "Montserrat-Font/Montserrat-Bold.ttf"; font_size := 24 |}.
Definition medium22 : font :=
  {| font_path := "Montserrat-Font/Montserrat-Medium.ttf"; font_size := 22 |}.

Definition texts : Bot.constants :=
  {| Bot.REGISTRATION_MSG := "Send your Faceit nickname";
     Bot.NICKNAME_NOT_FOUND := "Nickname not found";
     Bot.REGISTRATION_OK := "Registered" |}.

(** A private message of user [id], in the chat of the same number. *)
Definition private (id : Z) (txt : string) : Bot.message :=
  {| Bot.chat_id := id; Bot.chat_type := "private";
     Bot.from_user_id := id; Bot.text := txt |}.

(** The state after user [id] has sent [/register]. *)
Definition awaiting (id : Z) : state :=
  snd (Bot.start_registration texts (private id "/register") fresh).

End Sample.

(** ** Further observations on what is drawn *)

Module Seen.

Import Py Pil Proc Utils.

(** The boxes of the rectangles among the calls, in the order drawn. *)
Definition boxes (ops : list draw_op) : list (Z * Z * Z * Z) :=
  flat_map (fun op =>
              match op with
              | Rectangle box _ _ _ => [box]
              | _ => []
              end) ops.

(** Where the right-anchored writes (one per item row) are put. *)
Definition row_anchors (ops : list draw_op) : list (Z * Z) :=
  flat_map (fun op =>
              match op with
              | DrawText xy _ _ _ AnchorRightAscender => [xy]
              | _ => []
              end) ops.

(** The right edge of a box. *)
Definition right_edge (box : Z * Z * Z * Z) : Z :=
  let '(_, _, x1, _) := box in x1.

(** The picture pasted for one auxiliary image: what was loaded, cut to a
    circle for the avatar, or the placeholder when the load raised. *)
Definition pasted (loaded : result picture) (circle : bool)
    (placeholder : picture) : picture :=
  match loaded with
  | Ok p => if circle then putalpha_circle p else p
  | Raise _ => placeholder
  end.

(** A block the renderer cannot index: a key is missing. *)
Definition incomplete (sb : stat_block) : Prop :=
  title sb = None \/ main_value sb = None.

(** Stripping the string again changes nothing. *)
Definition trimmed (s : string) : Prop := Py.strip s = s.

(** Every string of a block is trimmed. *)
Definition block_trimmed (sb : stat_block) : Prop :=
  (forall t, title sb = Some t -> trimmed t)
  /\ (forall v, main_value sb = Some v -> trimmed v)
  /\ Forall (fun it => trimmed (item_title it) /\ trimmed (item_value it))
            (items sb).

End Seen.

(** ** More sample data *)

Module Sample2.

Import Py Bs4 Pil Proc Utils.

(** The record extracted from [Sample.page]. *)
Definition stats : player_stats :=
  {| avatar_url := Some "https://cdn.example/avatar.png";
     flag_url := Some "https://faceitanalyser.com/static/flags/kz.svg";
     level_url := Some "https://faceitanalyser.com/static/levels/10.svg";
     name := "s1mple";
     elo := "3021 ELO";
     view1_stats := [parse_block Sample.winrate_block];
     view2_stats := [] |}.

(** The request for the flag times out, the others are answered. *)
Definition flag_times_out : world :=
  {| html_parser := fun _ => Ok Sample.page;
     respond := fun url =>
       if String.eqb url "https://faceitanalyser.com/static/flags/kz.svg"
       then Raise (RequestException "ReadTimeout")
       else Ok (Sample.reply "bytes");
     svg2png_ok := fun _ => true;
     image_open_ok := fun _ => true;
     font_file_ok := fun _ => true;
     textbbox := Sample.metrics;
     sqlite_fails := fun _ => false;
     current_timestamp := 0 |}.

(** The bold font file is not where the program looks for it. *)
Definition no_bold_font : world :=
  {| html_parser := fun _ => Ok Sample.page;
     respond := fun _ => Ok (Sample.reply "bytes");
     svg2png_ok := fun _ => true;
     image_open_ok := fun _ => true;
     font_file_ok := fun path =>
       negb (String.eqb path "Montserrat-Font/Montserrat-Bold.ttf");
     textbbox := Sample.metrics;
     sqlite_fails := fun _ => false;
     current_timestamp := 0 |}.

(** A block element without the main-value span. *)
Definition headless_block : node :=
  Tag "div" ["stats_totals_block_wrapper"] []
    [ Sample.span "stats_totals_block_title_text" "Matches";
      Sample.span "stats_totals_block_item_title" "Wins";
      Sample.span "stats_totals_block_item_value" "59" ].

(** [stats] with such a block in its second view. *)
Definition stats_with_headless_block : player_stats :=
  {| avatar_url := avatar_url stats;
     flag_url := flag_url stats;
     level_url := level_url stats;
     name := name stats;
     elo := elo stats;
     view1_stats := view1_stats stats;
     view2_stats := [parse_block headless_block] |}.

(** A block with five items. *)
Definition five_items : stat_block :=
  {| title := Some "Matches";
     main_value := Some "120";
     items := [ {| item_title := "Wins"; item_value := "59" |};
                {| item_title := "Losses"; item_value := "61" |};
                {| item_title := "Longest win streak"; item_value := "7" |};
                {| item_title := "Longest lose streak"; item_value := "5" |};
                {| item_title := "Current streak"; item_value := "2" |} ] |}.

(** A view of five blocks. *)
Definition five_blocks : list stat_block :=
  [five_items; five_items; five_items; five_items; five_items].

(** SQLite accepts everything up to the commit, which it refuses. *)
Definition commit_fails : world :=
  {| html_parser := fun _ => Ok Sample.page;
     respond := fun _ => Ok (Sample.reply "<html>");
     svg2png_ok := fun _ => true;
     image_open_ok := fun _ => true;
     font_file_ok := fun _ => true;
     textbbox := Sample.metrics;
     sqlite_fails := fun step =>
       match step with Commit => true | _ => false end;
     current_timestamp := 500 |}.

(** The state after user 42 registered "s1mple" at time 100. *)
Definition registered : state :=
  snd (Bot.register_user (Sample.online Sample.page 100) 42 "s1mple"
         Sample.fresh).

(** The state after user 42 registered "foo bar", a nickname with a blank
    inside, which the site of [Sample.online] resolves as any other. *)
Definition registered_two_words : state :=
  snd (Bot.register_user (Sample.online Sample.page 100) 42 "foo bar"
         Sample.fresh).

End Sample2.

(** ** faceitcs2stats_bot.py: the other handlers *)

Module Cmd.

Import Py Pil Proc Utils.

(** Keeps a word that has at least one character. *)
Definition flush (word : string) (rest : list string) : list string :=
  if truthy word then word :: rest else rest.

(** [s.split()] from the right of the word read so far: blanks separate
    words and make none. *)
Fixpoint split_from (word : string) (s : string) : list string :=
  match s with
  | EmptyString => flush word []
  | String c r =>
      if isspace c then flush word (split_from EmptyString r)
      else split_from (word ++ String c EmptyString) r
  end.

(** [s.split()] *)
Definition split (s : string) : list string := split_from EmptyString s.

(** The texts of [constants.py] the other handlers send. *)
Record texts : Type := {
  WELCOME_TEXT : string;
  HELP_TEXT : string;
  NOT_REGISTERED : string;
  STAT_MSG : string
}.

(** Handler of [/start]. *)
Definition send_welcome (t : texts) (m : Bot.message) : M unit :=
  modify (send (SendMessage (Bot.chat_id m) (WELCOME_TEXT t))).

(** Handler of [/help]. *)
Definition send_help (t : texts) (m : Bot.message) : M unit :=
  modify (send (SendMessage (Bot.chat_id m) (HELP_TEXT t))).

(** Handler of [/stat]: [Some false] is [return False], [None] is falling
    off the end.  With a parameter after the command the nickname is that
    parameter; without one it is looked up, and [None] there ends the
    call. *)
Definition handle_stat_command (w : world) (c : Bot.constants) (t : texts)
    (m : Bot.message) : M (option bool) :=
  let parts := split (Bot.text m) in
  found ←
    (if (1 <? length parts)%nat
     then ret (Some (nth 1 parts EmptyString))
     else Bot.get_faceit_nickname_from_db w (Bot.from_user_id m));
  match found with
  | None =>
      _ ← modify (send (SendMessage (Bot.chat_id m) (NOT_REGISTERED t)));
      ret (Some false)
  | Some nickname =>
      user_data ← Bot.get_user_stat w nickname;
      match user_data with
      | None =>
          _ ← modify (send (SendMessage (Bot.chat_id m)
                              (Bot.NICKNAME_NOT_FOUND c)));
          ret (Some false)
      | Some data =>
          stat_img ← generate_player_card w data;
          _ ← Bot.send_high_quality_photo (Bot.chat_id m) stat_img
                (STAT_MSG t ++ " <b>" ++ nickname ++ "</b>");
          ret None
      end
  end.

(** The environment [w] with SQLite failing where [faults] says. *)
Definition with_sqlite (faults : db_step -> bool) (w : world) : world :=
  {| html_parser := html_parser w;
     respond := respond w;
     svg2png_ok := svg2png_ok w;
     image_open_ok := image_open_ok w;
     font_file_ok := font_file_ok w;
     textbbox := textbbox w;
     sqlite_fails := faults;
     current_timestamp := current_timestamp w |}.

Definition stat_texts : texts :=
  {| WELCOME_TEXT := "Welcome";
     HELP_TEXT := "Help";
     NOT_REGISTERED := "You are not registered";
     STAT_MSG := "Statistics of" |}.

End Cmd.

(** ** faceitcs2stats_bot.py: which handler takes a message

  The decorators register the handlers in the order of the file:
  [send_welcome] for [/start], [send_help] for [/help],
  [start_registration] for [/register] in a private chat,
  [handle_registration_input] behind its filter function, and
  [handle_stat_command] for [/stat].  telebot hands a text message to the
  first registered handler whose filters all accept it, and to no other. *)

Module Dispatch.

Import Py Proc.

(** [s.split('@')[0]] *)
Fixpoint before_at (s : string) : string :=
  match s with
  | EmptyString => EmptyString
  | String c r =>
      if Ascii.eqb c "@" then EmptyString else String c (before_at r)
  end.

(** [s[1:]] *)
Definition from_1 (s : string) : string :=
  match s with String _ r => r | EmptyString => EmptyString end.

(** [telebot.util.extract_command]: for a text that starts with a slash,
    [text.split()[0].split('@')[0][1:]]; [None] for any other text.  A text
    that starts with a slash has a first word. *)
Definition extract_command (text : string) : option string :=
  if String.prefix "/" text
  then Some (from_1 (before_at (nth 0 (Cmd.split text) EmptyString)))
  else None.

(** The filter [commands=[name]]. *)
Definition commands (name : string) (m : Bot.message) : bool :=
  match extract_command (Bot.text m) with
  | Some command => String.eqb command name
  | None => false
  end.

(** The filter [chat_types=['private']]. *)
Definition chat_types_private (m : Bot.message) : bool :=
  String.eqb (Bot.chat_type m) "private".

Inductive handler : Type :=
| SendWelcome
| SendHelp
| StartRegistration
| HandleRegistrationInput
| HandleStatCommand.

(** The handler that takes message [m] when the process is in state [s]. *)
Definition handler_for (s : state) (m : Bot.message) : option handler :=
  if commands "start" m then Some SendWelcome
  else if commands "help" m then Some SendHelp
  else if commands "register" m && chat_types_private m
  then Some StartRegistration
  else if Bot.waits_for_login s m then Some HandleRegistrationInput
  else if commands "stat" m then Some HandleStatCommand
  else None.

End Dispatch.

(** ** init_db.py *)

Module InitDb.

Import Py Proc.

(** The database file at [full_path]: missing, there without a [users]
    table, or there with the table and its rows. *)
Inductive db_file : Type :=
| NoFile
| EmptyFile
| UsersTable (rows : list user_row).



(** What the script acts on: the file, and the lines whose [print] went
    through (latest first). *)
Record disk : Type := { file : db_file; printed : list nat }.

Definition IO (A : Type) : Type := disk -> result A * disk.

Definition unit_io {A} (a : A) : IO A := fun d => (Ok a, d).
















End InitDb.

(** * Properties *)

Import Py Pil Proc Utils Obs.

(** Runs the effectful combinators of a goal down to a match on what the
    environment answers. *)
Ltac run_M :=
  unfold mbind, M_bind, Proc.bind, mret, M_ret, Proc.ret, Proc.raise,
    Proc.lift, Proc.modify, Proc.try_except, Proc.try_finally;
  cbn beta iota.

(** ** The tint of the main value *)

Lemma not_thresholded t :
  ~ thresholded t ->
  in_list t ["Avg. KDR"; "FA Rating"] = false /\ String.eqb t "Winrate" = false.
Proof.
  unfold in_list, thresholded. cbn [existsb]. intros H.
  destruct (String.eqb_spec t "Avg. KDR"); [tauto|].
  destruct (String.eqb_spec t "FA Rating"); [tauto|].
  destruct (String.eqb_spec t "Winrate"); [tauto|]. done.
Qed.

(** C2. Whenever [draw_stat_table] renders a block, its third call on the
    canvas writes the main value, in the warning tint exactly when the title is "Avg. KDR" or
    "FA Rating" and the parsed value is below 1, or the title is "Winrate"
    and the parsed value is below 50, and in the positive tint otherwise.
    "Winrate" 49 is warned and 50 is not; "FA Rating" 0.99 is warned and
    1.00 is not. *)
Theorem draw_stat_table_tint :
  (forall w x y sb tw th tf stf svf ops,
      draw_stat_table w x y sb tw th tf stf svf = Ok ops ->
      exists t v,
        title sb = Some t /\ main_value sb = Some v /\
        nth_error ops 2
        = Some (DrawText (x + (tw - bbox_width w v stf) / 2, y + 50) v
                  (if warning_rule t v then WARNING_TINT else POSITIVE_TINT)
                  stf AnchorDefault))
  /\ WARNING_TINT <> POSITIVE_TINT
  /\ (forall w x y its tw th tf stf svf,
        tint_of (draw_stat_table w x y (block "Winrate" "49" its)
                                 tw th tf stf svf) = Some WARNING_TINT
        /\ tint_of (draw_stat_table w x y (block "Winrate" "50" its)
                                    tw th tf stf svf) = Some POSITIVE_TINT
        /\ tint_of (draw_stat_table w x y (block "FA Rating" "0.99" its)
                                    tw th tf stf svf) = Some WARNING_TINT
        /\ tint_of (draw_stat_table w x y (block "FA Rating" "1.00" its)
                                    tw th tf stf svf) = Some POSITIVE_TINT).
Proof.
  split; [|split; [discriminate|]].
  - intros w x y [[t|] [v|] its] tw th tf stf svf ops;
      unfold draw_stat_table, fill_color, fill_color_with;
      cbn [title main_value getitem mbind result_bind Py.bind]; try discriminate.
    + intros H. exists t, v. split; [done|]. split; [done|].
      unfold warning_rule, below, in_list in *. cbn [existsb] in H.
      rewrite orb_false_r in H.
      destruct (String.eqb t "Avg. KDR" || String.eqb t "FA Rating"),
        (String.eqb t "Winrate"), (PyFloat.float v) as [fv|e];
        cbn in H; try discriminate;
        try (destruct (PyFloat.lt_int fv 1));
        try (destruct (PyFloat.lt_int fv 50));
        cbn in H; injection H as <-; reflexivity.
    + unfold in_list. cbn [existsb].
      destruct (String.eqb t "Avg. KDR" || (String.eqb t "FA Rating" || false)),
        (String.eqb t "Winrate"); cbn; discriminate.
  - intros w x y its tw th tf stf svf. repeat split; reflexivity.
Qed.

(** The sample "Winrate" block, whose main value reads 49, is warned. *)
Lemma draw_stat_table_tint_witness :
  exists ops,
    draw_stat_table (Sample.online Sample.page 0) 50 315
      (parse_block Sample.winrate_block) 350 180
      Sample.bold28 Sample.bold24 Sample.medium22 = Ok ops
    /\ main_value_tint ops = Some WARNING_TINT.
Proof.
  destruct (proj1 draw_stat_table_tint (Sample.online Sample.page 0) 50 315
              (parse_block Sample.winrate_block) 350 180
              Sample.bold28 Sample.bold24 Sample.medium22 _ eq_refl)
    as (t & v & Ht & Hv & Htint).
  injection Ht as <-. injection Hv as <-.
  eexists. split; [reflexivity|].
  unfold main_value_tint. rewrite Htint. reflexivity.
Defined.

(** C9. For a block whose title is none of "Avg. KDR", "FA Rating" and
    "Winrate", the tint is computed without converting [main_value]: it is
    the positive tint for every conversion function, even one that always
    raises, and the block is rendered whatever string [main_value] holds.
    A [ValueError] leaves [draw_stat_table] only for one of the three
    titles, and there it does for a value that is no number. *)
Theorem other_titles_skip_float :
  (forall sb t,
      title sb = Some t -> ~ thresholded t ->
      (forall to_float, fill_color_with to_float sb = Ok POSITIVE_TINT)
      /\ (forall w x y tw th tf stf svf v,
            main_value sb = Some v ->
            tint_of (draw_stat_table w x y sb tw th tf stf svf)
            = Some POSITIVE_TINT))
  /\ (forall w x y sb tw th tf stf svf msg,
        draw_stat_table w x y sb tw th tf stf svf = Raise (ValueError msg) ->
        exists t, title sb = Some t /\ thresholded t)
  /\ (forall w x y its tw th tf stf svf,
        exists msg,
          draw_stat_table w x y (block "Winrate" "N/A" its) tw th tf stf svf
          = Raise (ValueError msg)).
Proof.
  split; [|split].
  - intros [tt_ mv its] t Ht Hn. cbn in Ht. subst tt_.
    apply not_thresholded in Hn as [Hl Hw].
    assert (Hfill : forall to_float,
               fill_color_with to_float
                 {| title := Some t; main_value := mv; items := its |}
               = Ok POSITIVE_TINT).
    { intros to_float. unfold fill_color_with.
      cbn [title getitem mbind result_bind Py.bind]. rewrite Hl, Hw.
      reflexivity. }
    split; [exact Hfill|].
    intros w x y tw th tf stf svf v Hv. cbn in Hv. subst mv.
    unfold draw_stat_table, fill_color. rewrite Hfill. reflexivity.
  - intros w x y [[t|] mv its] tw th tf stf svf msg;
      unfold draw_stat_table; cbn [title getitem mbind result_bind Py.bind];
      [|discriminate].
    intros H. exists t. split; [done|].
    destruct (in_list t ["Avg. KDR"; "FA Rating"]) eqn:Hl.
    { unfold in_list in Hl. cbn [existsb] in Hl. unfold thresholded.
      destruct (String.eqb_spec t "Avg. KDR"); [tauto|].
      destruct (String.eqb_spec t "FA Rating"); [tauto|]. discriminate. }
    destruct (String.eqb_spec t "Winrate") as [->|Hw];
      [unfold thresholded; tauto|].
    exfalso. unfold fill_color, fill_color_with in H.
    cbn [title getitem mbind result_bind Py.bind] in H. rewrite Hl in H.
    apply String.eqb_neq in Hw. rewrite Hw in H.
    destruct mv; cbn in H; discriminate.
  - intros. eexists. reflexivity.
Qed.

(** A block titled "Matches" is rendered in the positive tint although its
    main value is no number. *)
Lemma other_titles_skip_float_witness :
  fill_color_with (fun _ => Raise (ValueError "never a number"))
    (block "Matches" "n/a" []) = Ok POSITIVE_TINT
  /\ tint_of (draw_stat_table (Sample.online Sample.page 0) 50 315
                (block "Matches" "n/a" []) 350 180
                Sample.bold28 Sample.bold24 Sample.medium22)
     = Some POSITIVE_TINT.
Proof.
  assert (Hn : ~ thresholded "Matches").
  { intros [H | [H | H]]; discriminate H. }
  destruct (proj1 other_titles_skip_float (block "Matches" "n/a" [])
              "Matches" eq_refl Hn) as [Hfill Hdraw].
  split; [apply Hfill|].
  exact (Hdraw _ _ _ _ _ _ _ _ "n/a" eq_refl).
Defined.

(** ** Item rows *)






(** ** Extraction *)

(** C1, as the specification words it, fails twice.  This page has both
    spans and both containers, and the record extracted from it has an
    empty name.  And on markup the parser rejects the function raises what
    the parser raised. *)
Lemma empty_name_counterexample :
  (exists n e d1 d2 r,
     Bs4.find "span" "stats_profile_name_span" Sample.page_with_empty_name
     = Some n
     /\ Bs4.find "span" "stats_profile_elo_span" Sample.page_with_empty_name
        = Some e
     /\ Bs4.find_by_id "div" "view1_stats" Sample.page_with_empty_name
        = Some d1
     /\ Bs4.find_by_id "div" "view2_stats" Sample.page_with_empty_name
        = Some d2
     /\ parse_faceitanalyser (Sample.online Sample.page_with_empty_name 0)
          "<html>" = Ok (Some r)
     /\ name r = "")
  /\ parse_faceitanalyser (Sample.strict_parser Sample.page)
       Sample.rejected_markup
     = Raise (ParserRejectedMarkup
                "unknown status keyword 'UNKNOWN' in marked section").
Proof.
  split; [|reflexivity]. do 5 eexists. repeat split; reflexivity.
Qed.

(** C1, amended. On markup the parser rejects, [parse_faceitanalyser]
    raises the parser's exception.  On every other input it does not raise
    and its result is decided by four lookups in the tree: when the name
    span, the ELO span, the [view1_stats] container or the [view2_stats]
    container is missing it returns [None]; when all four are found it
    returns a record whose [name] and [elo] are the stripped texts of the
    two spans (empty when a span holds no visible text) and whose two views
    are the blocks of the two containers. *)
Theorem parse_faceitanalyser_all_or_nothing (w : world) (html : string) :
  match html_parser w html with
  | Raise e => parse_faceitanalyser w html = Raise e
  | Ok soup =>
      match Bs4.find "span" "stats_profile_name_span" soup,
            Bs4.find "span" "stats_profile_elo_span" soup,
            Bs4.find_by_id "div" "view1_stats" soup,
            Bs4.find_by_id "div" "view2_stats" soup with
      | Some name_span, Some elo_span, Some div1, Some div2 =>
          exists r,
            parse_faceitanalyser w html = Ok (Some r)
            /\ name r = Bs4.get_text_strip name_span
            /\ elo r = Bs4.get_text_strip elo_span
            /\ view1_stats r = parse_view_stats_div div1
            /\ view2_stats r = parse_view_stats_div div2
      | _, _, _, _ => parse_faceitanalyser w html = Ok None
      end
  end.
Proof.
  unfold parse_faceitanalyser.
  destruct (html_parser w html) as [soup|e]; [cbn|reflexivity].
  destruct (Bs4.find "span" "stats_profile_name_span" _) as [n|];
    [|reflexivity].
  destruct (Bs4.find "span" "stats_profile_elo_span" _) as [e|];
    [|reflexivity].
  destruct (Bs4.find_by_id "div" "view1_stats" _) as [d1|]; [|reflexivity].
  destruct (Bs4.find_by_id "div" "view2_stats" _) as [d2|]; [|reflexivity].
  eexists. split; [reflexivity|]. repeat split.
Qed.

(** C8, as the specification words it, fails: the first level image of this
    page has an absolute [src], and the recorded flag URL is that address
    with the site's origin in front of it. *)
Lemma absolute_flag_counterexample :
  exists first r,
    nth_error (Bs4.find_all "img" "stats_profile_level_image"
                 Sample.page_with_absolute_flag) 0 = Some first
    /\ Bs4.get "src" first = Some "https://cdn.example/flags/kz.svg"
    /\ parse_faceitanalyser (Sample.online Sample.page_with_absolute_flag 0)
         "<html>" = Ok (Some r)
    /\ flag_url r
       = Some "https://faceitanalyser.com/https://cdn.example/flags/kz.svg"
    /\ flag_url r <> Some "https://cdn.example/flags/kz.svg".
Proof.
  do 2 eexists. split; [reflexivity|]. split; [reflexivity|].
  split; [reflexivity|]. split; [reflexivity|]. cbn. discriminate.
Qed.

Lemma level_urls_by_position (soup : Bs4.node) :
  let level_images := Bs4.find_all "img" "stats_profile_level_image" soup in
  level_urls soup
  = (prefixed (nth_error level_images 0), prefixed (nth_error level_images 1)).
Proof.
  unfold level_urls, prefixed.
  destruct (Bs4.find_all "img" "stats_profile_level_image" soup)
    as [|a [|b l]]; cbn; [reflexivity| |].
  - destruct (src_of a); reflexivity.
  - destruct (src_of a), (src_of b); reflexivity.
Qed.

(** C8, amended. Of the elements with the level-image class the first is
    recorded as the flag and the second as the level image, each as the
    site's origin followed by the element's [src], whether or not that
    [src] is already absolute; an element without a non-empty [src] records
    nothing, and elements after the second are ignored. *)
Theorem level_images_by_position (w : world) (html : string) r :
  parse_faceitanalyser w html = Ok (Some r) ->
  exists soup,
    html_parser w html = Ok soup
    /\ flag_url r
       = prefixed (nth_error (Bs4.find_all "img" "stats_profile_level_image"
                                soup) 0)
    /\ level_url r
       = prefixed (nth_error (Bs4.find_all "img" "stats_profile_level_image"
                                soup) 1).
Proof.
  unfold parse_faceitanalyser.
  destruct (html_parser w html) as [soup|e]; [cbn|discriminate].
  intros H. exists soup. split; [reflexivity|]. revert H.
  rewrite level_urls_by_position.
  destruct (Bs4.find "span" "stats_profile_name_span" _); [|discriminate].
  destruct (Bs4.find "span" "stats_profile_elo_span" _); [|discriminate].
  destruct (Bs4.find_by_id "div" "view1_stats" _); [|discriminate].
  destruct (Bs4.find_by_id "div" "view2_stats" _); [|discriminate].
  cbn. intros [= <-]. cbn. done.
Qed.

(** On the sample page the two relative addresses get the origin. *)
Lemma level_images_by_position_witness :
  exists r,
    parse_faceitanalyser (Sample.online Sample.page 0) "<html>" = Ok (Some r)
    /\ flag_url r = Some "https://faceitanalyser.com/static/flags/kz.svg"
    /\ level_url r = Some "https://faceitanalyser.com/static/levels/10.svg".
Proof.
  eexists. split; [reflexivity|].
  destruct (level_images_by_position (Sample.online Sample.page 0) "<html>" _
              eq_refl) as (soup & Hsoup & Hflag & Hlevel).
  injection Hsoup as <-. exact (conj Hflag Hlevel).
Defined.

(** ** Rendering the card *)

(** C3. The record extracted from a page without an avatar element has no
    [avatar_url], and [generate_player_card] raises on it instead of pasting
    the gray placeholder. *)
Theorem card_fails_without_avatar :
  exists data,
    parse_faceitanalyser (Sample.online Sample.page_without_avatar 0)
      "<html>" = Ok (Some data)
    /\ avatar_url data = None
    /\ generate_player_card (Sample.online Sample.page_without_avatar 0)
         data Sample.fresh
       = (Raise (Exception "Ошибка при генерации карточки: 'avatar_url'"),
          Sample.fresh).
Proof. eexists. repeat split; reflexivity. Qed.

(** [load_image_safe] sends one request and either returns the picture or
    raises [ImageLoadError], nothing else. *)
Lemma load_image_safe_cases w url dims s :
  (exists p, load_image_safe w url dims s = (Ok p, log_request url s))
  \/ (exists msg,
        load_image_safe w url dims s
        = (Raise (ImageLoadError msg), log_request url s)).
Proof.
  unfold load_image_safe, requests_get. run_M.
  destruct (respond w url) as [resp|e]; cbn [is_Exception].
  - destruct (raise_for_status resp) as [[]|e].
    + match goal with |- context [if ?b then _ else _] => destruct b end.
      * destruct (svg2png_ok w (body resp)); cbn; eauto.
      * destruct (image_open_ok w (body resp)); cbn; eauto.
    + destruct (is_RequestException e); cbn; eauto.
  - destruct (is_RequestException e); cbn; eauto.
Qed.

Lemma load_image_safe_unreachable w url dims s e :
  respond w url = Raise e ->
  exists msg,
    load_image_safe w url dims s
    = (Raise (ImageLoadError msg), log_request url s).
Proof.
  intros H. unfold load_image_safe, requests_get. run_M.
  rewrite H. cbn [is_Exception].
  destruct (is_RequestException e); cbn; eauto.
Qed.

(** Whatever the body of the card raises leaves as [Exception]. *)
Lemma generate_player_card_raises w data s e s' :
  card_body w data s = (Raise e, s') ->
  generate_player_card w data s
  = (Raise (Exception ("Ошибка при генерации карточки: " ++ message e)), s').
Proof.
  intros H. unfold generate_player_card. run_M. rewrite H. reflexivity.
Qed.

(** X4. A record that lacks one of the three URL keys is never rendered:
    [generate_player_card] raises on it. *)
Lemma card_needs_all_urls w data s :
  avatar_url data = None \/ flag_url data = None \/ level_url data = None ->
  exists msg s',
    generate_player_card w data s = (Raise (Exception msg), s').
Proof.
  intros Hmiss.
  enough (exists e s', card_body w data s = (Raise e, s')) as (e & s' & H).
  { do 2 eexists. apply generate_player_card_raises, H. }
  unfold card_body, truetype. run_M.
  destruct (font_file_ok w "Montserrat-Font/Montserrat-Bold.ttf");
    [|eauto].
  destruct (font_file_ok w "Montserrat-Font/Montserrat-Medium.ttf");
    [|eauto].
  destruct (avatar_url data) as [a|]; cbn [getitem]; [|eauto].
  destruct (load_image_safe_cases w a (150, 150) s) as [[p ->]|[m ->]];
    cbn [is_ImageLoadError].
  all: destruct (flag_url data) as [f|]; cbn [getitem]; [|eauto].
  all: destruct (load_image_safe_cases w f (60, 45) (log_request a s))
         as [[q ->]|[n ->]]; cbn [is_ImageLoadError].
  all: destruct (level_url data) as [l|]; cbn [getitem]; [|eauto].
  all: destruct Hmiss as [Hm | [Hm | Hm]]; discriminate Hm.
Qed.

(** X3. With the three URLs present and none of them reachable, the card
    is complete: 1600 x 820, the three placeholders pasted first at their
    positions, three requests sent. *)
Lemma card_with_placeholders w data s a f l t1 t2 :
  avatar_url data = Some a -> flag_url data = Some f ->
  level_url data = Some l ->
  (forall url, is_raise (respond w url) = true) ->
  (forall path, font_file_ok w path = true) ->
  draw_tables w 315
    {| font_path := "Montserrat-Font/Montserrat-Bold.ttf"; font_size := 28 |}
    {| font_path := "Montserrat-Font/Montserrat-Bold.ttf"; font_size := 24 |}
    {| font_path := "Montserrat-Font/Montserrat-Medium.ttf"; font_size := 22 |}
    (enumerate (view1_stats data)) = Ok t1 ->
  draw_tables w 590
    {| font_path := "Montserrat-Font/Montserrat-Bold.ttf"; font_size := 28 |}
    {| font_path := "Montserrat-Font/Montserrat-Bold.ttf"; font_size := 24 |}
    {| font_path := "Montserrat-Font/Montserrat-Medium.ttf"; font_size := 22 |}
    (enumerate (view2_stats data)) = Ok t2 ->
  exists img s',
    generate_player_card w data s = (Ok img, s')
    /\ img_width img = 1600 /\ img_height img = 820
    /\ firstn 3 (drawn img) = placeholders
    /\ requests s' = l :: f :: a :: requests s.
Proof.
  intros Ha Hf Hl Hdown Hfont H1 H2.
  assert (Hload : forall url dims s0, exists msg,
             load_image_safe w url dims s0
             = (Raise (ImageLoadError msg), log_request url s0)).
  { intros url dims s0. specialize (Hdown url).
    destruct (respond w url) as [|e] eqn:Hr; [discriminate|].
    eapply load_image_safe_unreachable, Hr. }
  unfold generate_player_card, card_body, truetype. run_M.
  rewrite !Hfont, Ha, Hf, Hl. cbn [getitem].
  destruct (Hload a (150, 150) s) as [m1 ->]. cbn [is_ImageLoadError].
  destruct (Hload f (60, 45) (log_request a s)) as [m2 ->].
  cbn [is_ImageLoadError].
  destruct (Hload l (70, 70) (log_request f (log_request a s))) as [m3 ->].
  cbn [is_ImageLoadError].
  change (300 - 40 + 50 + 5) with 315. rewrite H1.
  change (315 + 180 + 40 + 50 + 5) with 590. rewrite H2.
  do 2 eexists. repeat split.
Qed.

(** ** Fetching the page *)

(** X9. Every call of [download_page] sends exactly one request, whether
    it returns or raises. *)
Lemma download_page_one_request w url s :
  requests (snd (download_page w url s)) = url :: requests s.
Proof.
  unfold download_page, requests_get. run_M.
  destruct (respond w url) as [resp|e].
  - destruct (raise_for_status resp) as [[]|e]; [reflexivity|].
    destruct (is_RequestException e); reflexivity.
  - destruct (is_RequestException e); reflexivity.
Qed.

(** A request that errors, times out or is answered with an error status
    makes [download_page] raise [TypeError]: the handler raises a [str]. *)
Lemma download_page_failure w url s :
  (exists msg, respond w url = Raise (RequestException msg))
  \/ (exists resp, respond w url = Ok resp
                   /\ 400 <= status_code resp < 600) ->
  download_page w url s
  = (Raise (TypeError "exceptions must derive from BaseException"),
     log_request url s).
Proof.
  unfold download_page, requests_get, raise_for_status. run_M.
  intros [[msg ->] | (resp & -> & Hlo & Hhi)]; [reflexivity|].
  apply Z.leb_le in Hlo. apply Z.ltb_lt in Hhi. rewrite Hlo, Hhi.
  reflexivity.
Qed.

(** C4. For a nickname the site answers with 404, and for a site that
    cannot be reached, [download_page] sends one request and then raises
    [TypeError], not an exception that tells of the failed download. *)
Theorem download_page_raises_TypeError :
  download_page (Sample.missing_page Sample.page_not_found)
    "https://faceitanalyser.com/stats/nobody/cs2" Sample.fresh
  = (Raise (TypeError "exceptions must derive from BaseException"),
     log_request "https://faceitanalyser.com/stats/nobody/cs2" Sample.fresh)
  /\ download_page (Sample.offline Sample.page)
       "https://faceitanalyser.com/stats/s1mple/cs2" Sample.fresh
     = (Raise (TypeError "exceptions must derive from BaseException"),
        log_request "https://faceitanalyser.com/stats/s1mple/cs2"
          Sample.fresh).
Proof. split; reflexivity. Qed.

(** ** The users table *)

Lemma state_eta s :
  {| requests := requests s; users := users s;
     open_connections := open_connections s;
     user_registration_data := user_registration_data s;
     outbox := outbox s |} = s.
Proof. destruct s. reflexivity. Qed.

Lemma bind_int_in_range n : int64 n -> Bot.bind_int n = ret tt.
Proof.
  unfold int64, Bot.bind_int. intros [Hlo Hhi].
  apply Z.leb_le in Hlo. apply Z.ltb_lt in Hhi. rewrite Hlo, Hhi.
  reflexivity.
Qed.

Lemma bind_int_out_of_range n :
  ~ int64 n ->
  Bot.bind_int n
  = raise (OverflowError "Python int too large to convert to SQLite INTEGER").
Proof.
  unfold int64, Bot.bind_int. intros Hout.
  destruct (- 2 ^ 63 <=? n) eqn:Hlo; [|reflexivity].
  destruct (n <? 2 ^ 63) eqn:Hhi; [|reflexivity].
  apply Z.leb_le in Hlo. apply Z.ltb_lt in Hhi. destruct Hout. lia.
Qed.

Lemma bind_int_cases n :
  (int64 n /\ Bot.bind_int n = ret tt)
  \/ (~ int64 n
      /\ Bot.bind_int n
         = raise (OverflowError
                    "Python int too large to convert to SQLite INTEGER")).
Proof.
  assert (Hdec : int64 n \/ ~ int64 n) by (unfold int64; lia).
  destruct Hdec as [Hin | Hout].
  - left. split; [exact Hin|]. apply bind_int_in_range, Hin.
  - right. split; [exact Hout|]. apply bind_int_out_of_range, Hout.
Qed.

(** Whatever the id and whatever happens, the connection the lookup opened
    is closed and nothing else has changed. *)
Lemma get_faceit_nickname_from_db_frame w id s :
  snd (Bot.get_faceit_nickname_from_db w id s) = s.
Proof.
  unfold Bot.get_faceit_nickname_from_db, Bot.sqlite3_connect, Bot.sql_step,
    Bot.close_connection, Bot.fetchone, Bot.bind_int, set_open_connections.
  run_M.
  destruct (sqlite_fails w Connect); [reflexivity|].
  destruct (sqlite_fails w ExecuteSelect); cbn; rewrite ?state_eta;
    [reflexivity|].
  destruct ((- 2 ^ 63 <=? id) && (id <? 2 ^ 63)); cbn; rewrite ?state_eta;
    [|reflexivity].
  destruct (Bot.select_by_id id (users s)); cbn; rewrite ?state_eta;
    reflexivity.
Qed.

(** C6, as the specification words it, fails: 2^63 is an [int] that SQLite
    cannot bind, and with the database in order the lookup of that id
    raises [OverflowError], which the handler for [sqlite3.Error] lets
    through. *)
Lemma lookup_overflows :
  Bot.get_faceit_nickname_from_db (Sample.online Sample.page 0) (2 ^ 63)
    Sample.fresh
  = (Raise (OverflowError
              "Python int too large to convert to SQLite INTEGER"),
     Sample.fresh).
Proof. reflexivity. Qed.

(** C6, amended. For a user id that SQLite can bind, one of the signed
    64-bit range as every Telegram id is, [get_faceit_nickname_from_db]
    always returns: it never raises, it answers [None] for an id with no
    row and whenever SQLite fails, at connecting or at the query, and
    otherwise the nickname of the row.  For every id, on every exit path,
    it leaves the state as it found it: the connection it opened is closed
    again. *)
Theorem get_faceit_nickname_from_db_soft_fail w id s :
  (int64 id ->
   exists r,
     Bot.get_faceit_nickname_from_db w id s = (Ok r, s)
     /\ (Bot.select_by_id id (users s) = [] -> r = None)
     /\ (sqlite_fails w Connect = true \/ sqlite_fails w ExecuteSelect = true ->
         r = None)
     /\ (sqlite_fails w Connect = false ->
         sqlite_fails w ExecuteSelect = false ->
         r = faceit_nickname <$> head (Bot.select_by_id id (users s))))
  /\ open_connections (snd (Bot.get_faceit_nickname_from_db w id s))
     = open_connections s.
Proof.
  split; [|rewrite get_faceit_nickname_from_db_frame; reflexivity].
  intros Hid.
  unfold Bot.get_faceit_nickname_from_db, Bot.sqlite3_connect, Bot.sql_step,
    Bot.close_connection, Bot.fetchone, set_open_connections.
  rewrite (bind_int_in_range _ Hid). run_M.
  destruct (sqlite_fails w Connect) eqn:Hc; cbn [is_SqliteError].
  - exists None. split; [reflexivity|].
    split; [done|]. split; [done|]. discriminate.
  - destruct (sqlite_fails w ExecuteSelect) eqn:He; cbn;
      rewrite ?state_eta.
    + exists None. split; [reflexivity|].
      split; [done|]. split; [done|]. discriminate.
    + destruct (Bot.select_by_id id (users s)) as [|row rows] eqn:Hsel;
        cbn; rewrite ?state_eta.
      * exists None. split; [reflexivity|]. done.
      * exists (Some (faceit_nickname row)).
        split; [reflexivity|].
        split; [discriminate|]. split; [|done].
        intros [H | H]; discriminate H.
Qed.

(** User 42: no answer without the database file, and the stored nickname
    once a row is there. *)
Lemma get_faceit_nickname_from_db_soft_fail_witness :
  int64 42
  /\ Bot.get_faceit_nickname_from_db (Sample.no_database Sample.page) 42
       Sample.fresh = (Ok None, Sample.fresh)
  /\ Bot.get_faceit_nickname_from_db (Sample.online Sample.page 0) 42
       Sample2.registered = (Ok (Some "s1mple"), Sample2.registered).
Proof.
  assert (H42 : int64 42) by (unfold int64; lia).
  split; [exact H42|]. split.
  - destruct (proj1 (get_faceit_nickname_from_db_soft_fail
                       (Sample.no_database Sample.page) 42 Sample.fresh) H42)
      as (r & Heq & _ & Hfail & _).
    rewrite Heq, (Hfail (or_introl eq_refl)). reflexivity.
  - destruct (proj1 (get_faceit_nickname_from_db_soft_fail
                       (Sample.online Sample.page 0) 42 Sample2.registered)
                H42)
      as (r & Heq & _ & _ & Hrow).
    rewrite Heq, (Hrow eq_refl eq_refl). reflexivity.
Defined.

Lemma get_user_stat_frame w n s :
  snd (Bot.get_user_stat w n s) = log_request (stats_url n) s.
Proof.
  unfold Bot.get_user_stat, Bot.get_html_page_by_nickname, download_page,
    requests_get, stats_url.
  run_M.
  destruct (respond w _) as [resp|e].
  - destruct (raise_for_status resp) as [[]|e]; [reflexivity|].
    destruct (is_RequestException e); reflexivity.
  - destruct (is_RequestException e); reflexivity.
Qed.

Lemma select_by_id_update now id n rows :
  Bot.select_by_id id (Bot.update_user now id n rows)
  = map (fun _ => user id n now) (Bot.select_by_id id rows).
Proof.
  unfold Bot.select_by_id, Bot.update_user.
  induction rows as [|r rows IH]; [reflexivity|].
  cbn [map List.filter]. destruct (Bot.has_id id r) eqn:Hr.
  - unfold Bot.has_id at 1. cbn [telegram_id].
    unfold Bot.has_id in Hr. rewrite Hr. cbn [map].
    apply Z.eqb_eq in Hr. rewrite Hr, IH. reflexivity.
  - rewrite Hr. exact IH.
Qed.

Lemma keys_update now id n rows :
  map telegram_id (Bot.update_user now id n rows) = map telegram_id rows.
Proof.
  unfold Bot.update_user. induction rows as [|r rows IH]; [reflexivity|].
  cbn [map]. rewrite IH. destruct (Bot.has_id id r); reflexivity.
Qed.

Lemma select_by_id_absent id rows :
  id ∉ map telegram_id rows -> Bot.select_by_id id rows = [].
Proof.
  unfold Bot.select_by_id. induction rows as [|r rows IH]; [reflexivity|].
  cbn [map List.filter]. intros Hn. apply not_elem_of_cons in Hn as [Hne Hn].
  unfold Bot.has_id at 1. destruct (Z.eqb_spec (telegram_id r) id);
    [congruence|]. auto.
Qed.

Lemma select_by_id_none id rows :
  head (Bot.select_by_id id rows) = None ->
  existsb (Bot.has_id id) rows = false /\ id ∉ map telegram_id rows.
Proof.
  unfold Bot.select_by_id. induction rows as [|r rows IH].
  - intros _. split; [reflexivity|]. apply not_elem_of_nil.
  - cbn [map List.filter existsb]. destruct (Bot.has_id id r) eqn:Hr;
      [discriminate|].
    intros H. destruct (IH H) as [He Hn]. split; [exact He|].
    apply not_elem_of_cons. split; [|exact Hn].
    unfold Bot.has_id in Hr. apply Z.eqb_neq in Hr. congruence.
Qed.

(** Under the key constraint at most one row answers a query by id. *)
Lemma primary_key_select id rows :
  primary_key rows ->
  Bot.select_by_id id rows = []
  \/ exists r, Bot.select_by_id id rows = [r].
Proof.
  unfold primary_key, Bot.select_by_id.
  induction rows as [|r rows IH]; [auto|].
  cbn [map List.filter]. intros Hnd. apply NoDup_cons in Hnd as [Hn Hnd].
  destruct (Bot.has_id id r) eqn:Hr; [|auto].
  right. exists r. f_equal. apply select_by_id_absent.
  unfold Bot.has_id in Hr. apply Z.eqb_eq in Hr. congruence.
Qed.

Lemma upsert_select now id n rows :
  primary_key rows ->
  Bot.select_by_id id (upsert now id n rows) = [user id n now].
Proof.
  intros Hpk. unfold upsert.
  destruct (head (Bot.select_by_id id rows)) as [r|] eqn:Hh.
  - rewrite select_by_id_update.
    destruct (primary_key_select id rows Hpk) as [H | [r' H]];
      rewrite H in *; [discriminate|reflexivity].
  - apply select_by_id_none in Hh as [_ Hn].
    unfold Bot.select_by_id. rewrite List.filter_app.
    fold (Bot.select_by_id id rows). rewrite (select_by_id_absent _ _ Hn).
    cbn. unfold Bot.has_id. cbn. rewrite Z.eqb_refl. reflexivity.
Qed.

Lemma upsert_primary_key now id n rows :
  primary_key rows -> primary_key (upsert now id n rows).
Proof.
  unfold primary_key, upsert. intros Hpk.
  destruct (head (Bot.select_by_id id rows)) as [r|] eqn:Hh.
  - rewrite keys_update. exact Hpk.
  - apply select_by_id_none in Hh as [_ Hn].
    rewrite List.map_app. cbn [map telegram_id user].
    apply NoDup_app. split; [exact Hpk|]. split; [|apply NoDup_singleton].
    intros x Hx Hin. apply list_elem_of_singleton in Hin. congruence.
Qed.

(** A nickname that does not resolve: no connection is opened, the table is
    not touched. *)
Lemma register_user_unresolved w id n s :
  (forall st, fst (Bot.get_user_stat w n s) <> Ok (Some st)) ->
  Bot.register_user w id n s
  = (match fst (Bot.get_user_stat w n s) with
     | Ok _ => Ok None
     | Raise e => Raise e
     end, log_request (stats_url n) s).
Proof.
  intros Hno. unfold Bot.register_user. run_M.
  pose proof (get_user_stat_frame w n s) as Hf.
  destruct (Bot.get_user_stat w n s) as [[[st|]|e] sa];
    cbn [fst snd] in *; subst sa; try reflexivity.
  destruct (Hno st eq_refl).
Qed.

(** A nickname that resolves, with SQLite working: the row is upserted and
    committed, the connection closed. *)
Lemma register_user_committed w id n s st :
  int64 id ->
  fst (Bot.get_user_stat w n s) = Ok (Some st) ->
  storage_works w ->
  Bot.register_user w id n s
  = (Ok (Some st),
     set_users (upsert (current_timestamp w) id n (users s))
               (log_request (stats_url n) s)).
Proof.
  intros Hid Hst Hs. unfold Bot.register_user. run_M.
  pose proof (get_user_stat_frame w n s) as Hf.
  destruct (Bot.get_user_stat w n s) as [r sa]. cbn [fst snd] in *.
  subst r sa.
  unfold Bot.sqlite3_connect, Bot.sql_step, Bot.close_connection,
    Bot.fetchone, upsert.
  rewrite (bind_int_in_range _ Hid). run_M. rewrite !Hs. cbn [users log_request set_open_connections].
  destruct (head (Bot.select_by_id id (users s))) as [r|] eqn:Hh.
  - reflexivity.
  - unfold Bot.insert_user. apply select_by_id_none in Hh as [-> _].
    reflexivity.
Qed.

(** C5, as the specification words it, fails: the site answers 404 for
    this nickname, so the nickname does not resolve, and [register_user]
    reports nothing: it raises, where a not-found outcome is [None]. The
    table is left as it was. *)
Lemma fetch_failure_is_not_reported :
  (forall st,
      fst (Bot.get_user_stat (Sample.missing_page Sample.page_not_found)
             "nobody" Sample.fresh) <> Ok (Some st))
  /\ fst (Bot.register_user (Sample.missing_page Sample.page_not_found)
            42 "nobody" Sample.fresh)
     = Raise (TypeError "exceptions must derive from BaseException")
  /\ fst (Bot.register_user (Sample.missing_page Sample.page_not_found)
            42 "nobody" Sample.fresh) <> Ok None
  /\ users (snd (Bot.register_user (Sample.missing_page Sample.page_not_found)
                   42 "nobody" Sample.fresh)) = users Sample.fresh.
Proof.
  split; [intros st; vm_compute; discriminate|].
  split; [reflexivity|]. split; [vm_compute; discriminate|reflexivity].
Qed.

(** C5, amended. [register_user] changes the table only after the nickname
    has resolved to a record: if it has not, the rows stay as they were.
    There are two ways of not resolving. A nickname whose page was fetched
    and yields no record is answered with [None], the not-found outcome.
    When [get_user_stat] raises, because the page could not be fetched or
    the parser rejected it, the same exception leaves [register_user] and
    no outcome is reported. When a user id that SQLite can bind is
    registered twice with nicknames that resolve, SQLite working and the
    table keeping its key, both calls return the record and the table then
    holds exactly one row for that id, with the nickname and the timestamp
    of the second call. *)
Theorem register_user_writes_resolved_only :
  (forall w id n s,
      (forall st, fst (Bot.get_user_stat w n s) <> Ok (Some st)) ->
      users (snd (Bot.register_user w id n s)) = users s)
  /\ (forall w id n s,
        fst (Bot.get_user_stat w n s) = Ok None ->
        fst (Bot.register_user w id n s) = Ok None
        /\ users (snd (Bot.register_user w id n s)) = users s)
  /\ (forall w id n s e,
        fst (Bot.get_user_stat w n s) = Raise e ->
        fst (Bot.register_user w id n s) = Raise e
        /\ users (snd (Bot.register_user w id n s)) = users s)
  /\ (forall w1 w2 id n1 n2 s0 st1 st2,
        int64 id ->
        primary_key (users s0) ->
        storage_works w1 -> storage_works w2 ->
        fst (Bot.get_user_stat w1 n1 s0) = Ok (Some st1) ->
        fst (Bot.get_user_stat w2 n2 (snd (Bot.register_user w1 id n1 s0)))
        = Ok (Some st2) ->
        fst (Bot.register_user w1 id n1 s0) = Ok (Some st1)
        /\ fst (Bot.register_user w2 id n2
                  (snd (Bot.register_user w1 id n1 s0))) = Ok (Some st2)
        /\ Bot.select_by_id id
             (users (snd (Bot.register_user w2 id n2
                            (snd (Bot.register_user w1 id n1 s0)))))
           = [user id n2 (current_timestamp w2)]
        /\ primary_key
             (users (snd (Bot.register_user w2 id n2
                            (snd (Bot.register_user w1 id n1 s0)))))).
Proof.
  split; [|split; [|split]].
  - intros w id n s Hno. rewrite (register_user_unresolved _ _ _ _ Hno).
    reflexivity.
  - intros w id n s Hnone.
    assert (Hno : forall st, fst (Bot.get_user_stat w n s) <> Ok (Some st))
      by (intros st; rewrite Hnone; discriminate).
    rewrite (register_user_unresolved _ _ _ _ Hno), Hnone. done.
  - intros w id n s e Hraise.
    assert (Hno : forall st, fst (Bot.get_user_stat w n s) <> Ok (Some st))
      by (intros st; rewrite Hraise; discriminate).
    rewrite (register_user_unresolved _ _ _ _ Hno), Hraise. done.
  - intros w1 w2 id n1 n2 s0 st1 st2 Hid Hpk Hs1 Hs2 H1 H2.
    rewrite (register_user_committed _ _ _ _ _ Hid H1 Hs1) in *.
    cbn [fst snd] in *.
    rewrite (register_user_committed _ _ _ _ _ Hid H2 Hs2).
    cbn [fst snd users set_users log_request].
    split; [reflexivity|]. split; [reflexivity|].
    split.
    + apply upsert_select, upsert_primary_key, Hpk.
    + apply upsert_primary_key, upsert_primary_key, Hpk.
Qed.

(** User 42 registers "s1mple" at time 100 and "niko" at time 200: one row,
    the later one.  A nickname the site does not know is answered with
    [None]; with the site answering 404, and with a page the parser
    rejects, the call raises.  In the three cases no row is written. *)
Lemma register_user_writes_resolved_only_witness :
  Bot.select_by_id 42
    (users (snd (Bot.register_user (Sample.online Sample.page 200) 42 "niko"
                   (snd (Bot.register_user (Sample.online Sample.page 100)
                           42 "s1mple" Sample.fresh)))))
  = [user 42 "niko" 200]
  /\ (fst (Bot.register_user (Sample.online Sample.page_not_found 300)
             42 "nobody" Sample.fresh) = Ok None
      /\ users (snd (Bot.register_user
                       (Sample.online Sample.page_not_found 300)
                       42 "nobody" Sample.fresh)) = [])
  /\ (fst (Bot.register_user (Sample.missing_page Sample.page_not_found)
             42 "nobody" Sample.fresh)
      = Raise (TypeError "exceptions must derive from BaseException")
      /\ users (snd (Bot.register_user
                       (Sample.missing_page Sample.page_not_found)
                       42 "nobody" Sample.fresh)) = [])
  /\ (fst (Bot.register_user (Sample.strict_parser Sample.page)
             42 "s1mple" Sample.fresh)
      = Raise (ParserRejectedMarkup
                 "unknown status keyword 'UNKNOWN' in marked section")
      /\ users (snd (Bot.register_user (Sample.strict_parser Sample.page)
                       42 "s1mple" Sample.fresh)) = []).
Proof.
  destruct register_user_writes_resolved_only
    as (_ & Hnone & Hraise & Htwice).
  split; [|split; [|split]].
  - assert (Hs : forall now, storage_works (Sample.online Sample.page now))
      by (intros now step; reflexivity).
    assert (H42 : int64 42) by (unfold int64; lia).
    destruct (Htwice
                (Sample.online Sample.page 100) (Sample.online Sample.page 200)
                42 "s1mple" "niko" Sample.fresh _ _ H42
                (NoDup_nil_2 : primary_key (users Sample.fresh))
                (Hs 100) (Hs 200) eq_refl eq_refl)
      as (_ & _ & Hsel & _).
    exact Hsel.
  - exact (Hnone (Sample.online Sample.page_not_found 300) 42 "nobody"
             Sample.fresh eq_refl).
  - exact (Hraise (Sample.missing_page Sample.page_not_found) 42 "nobody"
             Sample.fresh _ eq_refl).
  - exact (Hraise (Sample.strict_parser Sample.page) 42 "s1mple"
             Sample.fresh _ eq_refl).
Defined.

(** ** The registration dialogue *)

Lemma register_user_keeps_flags w id n s :
  user_registration_data (snd (Bot.register_user w id n s))
  = user_registration_data s.
Proof.
  unfold Bot.register_user. run_M.
  pose proof (get_user_stat_frame w n s) as Hf.
  destruct (Bot.get_user_stat w n s) as [[[st|]|e] sa];
    cbn [fst snd] in *; subst sa; try reflexivity.
  unfold Bot.sqlite3_connect, Bot.sql_step, Bot.close_connection,
    Bot.fetchone.
  run_M.
  destruct (sqlite_fails w Connect); [reflexivity|].
  destruct (sqlite_fails w ExecuteSelect); [reflexivity|].
  destruct (bind_int_cases id) as [[_ ->]|[_ ->]]; run_M; [|reflexivity].
  destruct (sqlite_fails w ExecuteWrite); [reflexivity|].
  destruct (head _); cbn.
  - destruct (sqlite_fails w Commit); reflexivity.
  - destruct (Bot.insert_user _ _ _ _) as [rows|e]; cbn.
    + destruct (sqlite_fails w Commit); reflexivity.
    + destruct (is_SqliteError e); reflexivity.
Qed.

Lemma generate_player_card_keeps_flags w data s :
  user_registration_data (snd (generate_player_card w data s))
  = user_registration_data s.
Proof.
  unfold generate_player_card, card_body, truetype. run_M.
  destruct (font_file_ok w "Montserrat-Font/Montserrat-Bold.ttf");
    [|reflexivity].
  destruct (font_file_ok w "Montserrat-Font/Montserrat-Medium.ttf");
    [|reflexivity].
  destruct (avatar_url data) as [a|]; cbn [getitem]; [|reflexivity].
  destruct (load_image_safe_cases w a (150, 150) s) as [[p ->]|[m ->]];
    cbn [is_ImageLoadError].
  all: destruct (flag_url data) as [f|]; cbn [getitem]; [|reflexivity].
  all: destruct (load_image_safe_cases w f (60, 45) (log_request a s))
         as [[q ->]|[k ->]]; cbn [is_ImageLoadError].
  all: destruct (level_url data) as [l|]; cbn [getitem]; [|reflexivity].
  all: destruct (load_image_safe_cases w l (70, 70)
                   (log_request f (log_request a s)))
         as [[r ->]|[j ->]]; cbn [is_ImageLoadError].
  all: destruct (draw_tables w _ _ _ _ (enumerate (view1_stats data)));
         [|reflexivity].
  all: destruct (draw_tables w _ _ _ _ (enumerate (view2_stats data)));
         reflexivity.
Qed.

(** What [handle_registration_input] does to the map, by the outcome of
    [register_user]. *)
Lemma handle_registration_input_flags w c m s :
  user_registration_data (snd (Bot.handle_registration_input w c m s))
  = match fst (Bot.register_user w (Bot.from_user_id m)
                 (strip (Bot.text m)) s) with
    | Ok (Some _) =>
        <[ Bot.from_user_id m := {| waiting_for_login := false |} ]>
          (user_registration_data s)
    | _ => user_registration_data s
    end.
Proof.
  unfold Bot.handle_registration_input. run_M.
  pose proof (register_user_keeps_flags w (Bot.from_user_id m)
                (strip (Bot.text m)) s) as Hf.
  destruct (Bot.register_user w (Bot.from_user_id m) (strip (Bot.text m)) s)
    as [[[data|]|e] sa]; cbn [fst snd] in *; try exact Hf.
  unfold Bot.send_high_quality_photo, Bot.set_waiting. run_M.
  pose proof (generate_player_card_keeps_flags w data
                (set_registration
                   (<[ Bot.from_user_id m := {| waiting_for_login := false |} ]>
                      (user_registration_data sa)) sa)) as Hg.
  destruct (generate_player_card w data _) as [[img|e] sb];
    cbn [fst snd] in *; cbn; rewrite Hg; cbn; rewrite Hf; reflexivity.
Qed.

(** The nickname handler is the fourth in line: it takes a message exactly
    when its filter accepts it and none of the three command handlers
    registered before it does. *)
Lemma handler_for_registration_input s m :
  Dispatch.handler_for s m = Some Dispatch.HandleRegistrationInput
  <-> Bot.waits_for_login s m = true
      /\ Dispatch.commands "start" m = false
      /\ Dispatch.commands "help" m = false
      /\ (Dispatch.commands "register" m
          && Dispatch.chat_types_private m) = false.
Proof.
  unfold Dispatch.handler_for.
  destruct (Dispatch.commands "start" m); [split; [discriminate|]|].
  { intros (_ & H & _). discriminate H. }
  destruct (Dispatch.commands "help" m); [split; [discriminate|]|].
  { intros (_ & _ & H & _). discriminate H. }
  destruct (Dispatch.commands "register" m && Dispatch.chat_types_private m);
    [split; [discriminate|]|].
  { intros (_ & _ & _ & H). discriminate H. }
  destruct (Bot.waits_for_login s m).
  - split; done.
  - split.
    + destruct (Dispatch.commands "stat" m); discriminate.
    + intros (H & _). discriminate H.
Qed.

(** What [handle_registration_input] answers when the nickname does not
    resolve. *)
Lemma handle_registration_input_unresolved w c m s :
  (forall st,
      fst (Bot.get_user_stat w (strip (Bot.text m)) s) <> Ok (Some st)) ->
  fst (Bot.handle_registration_input w c m s)
  = match fst (Bot.get_user_stat w (strip (Bot.text m)) s) with
    | Ok _ => Ok (Some false)
    | Raise e => Raise e
    end.
Proof.
  intros Hno. unfold Bot.handle_registration_input. run_M.
  rewrite (register_user_unresolved _ _ _ _ Hno).
  destruct (fst (Bot.get_user_stat w (strip (Bot.text m)) s)) as [r|e];
    reflexivity.
Qed.

(** C10, as the specification words it, fails: user 42 is waiting, the
    nickname sent does not resolve and the flag stays [True], yet the next
    private message of that user, [/help], is taken by [send_help] and not
    as a nickname. *)
Lemma waiting_user_sends_help :
  fst (Bot.handle_registration_input
         (Sample.online Sample.page_not_found 0) Sample.texts
         (Sample.private 42 " nobody ") (Sample.awaiting 42))
  = Ok (Some false)
  /\ Bot.waits_for_login
       (snd (Bot.handle_registration_input
               (Sample.online Sample.page_not_found 0) Sample.texts
               (Sample.private 42 " nobody ") (Sample.awaiting 42)))
       (Sample.private 42 "/help") = true
  /\ Dispatch.handler_for
       (snd (Bot.handle_registration_input
               (Sample.online Sample.page_not_found 0) Sample.texts
               (Sample.private 42 " nobody ") (Sample.awaiting 42)))
       (Sample.private 42 "/help") = Some Dispatch.SendHelp.
Proof. repeat split; reflexivity. Qed.

(** C10, amended. When the submitted nickname does not resolve, because
    its page yields no record or because [get_user_stat] raises, the
    handler leaves [user_registration_data] as it was: it answers [False]
    in the first case and raises in the second.  A user who was waiting
    still passes the handler's filter with every private text message, and
    such a message is taken as a nickname exactly when it is no [/start],
    [/help] or [/register] command, whose handlers come first.
    When [register_user] returns a record, the user's entry becomes
    [{'waiting_for_login': False}] and no message of that user is taken as
    a nickname.
    Neither handler removes a key from the map, and [/register] sets the
    entry to [{'waiting_for_login': True}]. *)
Theorem registration_flag_persists w c m s :
  ((forall st,
       fst (Bot.get_user_stat w (strip (Bot.text m)) s) <> Ok (Some st)) ->
   user_registration_data (snd (Bot.handle_registration_input w c m s))
   = user_registration_data s
   /\ (Bot.waits_for_login s m = true ->
       forall m',
         Bot.chat_type m' = "private" ->
         Bot.from_user_id m' = Bot.from_user_id m ->
         Bot.waits_for_login
           (snd (Bot.handle_registration_input w c m s)) m' = true
         /\ (Dispatch.handler_for
               (snd (Bot.handle_registration_input w c m s)) m'
             = Some Dispatch.HandleRegistrationInput
             <-> Dispatch.commands "start" m' = false
                 /\ Dispatch.commands "help" m' = false
                 /\ Dispatch.commands "register" m' = false)))
  /\ (fst (Bot.get_user_stat w (strip (Bot.text m)) s) = Ok None ->
      fst (Bot.handle_registration_input w c m s) = Ok (Some false))
  /\ (forall e,
        fst (Bot.get_user_stat w (strip (Bot.text m)) s) = Raise e ->
        fst (Bot.handle_registration_input w c m s) = Raise e)
  /\ (forall data,
        fst (Bot.register_user w (Bot.from_user_id m) (strip (Bot.text m)) s)
        = Ok (Some data) ->
        user_registration_data (snd (Bot.handle_registration_input w c m s))
        !! Bot.from_user_id m
        = Some {| waiting_for_login := false |}
        /\ Bot.waits_for_login
             (snd (Bot.handle_registration_input w c m s)) m = false
        /\ (forall m',
              Bot.from_user_id m' = Bot.from_user_id m ->
              Dispatch.handler_for
                (snd (Bot.handle_registration_input w c m s)) m'
              <> Some Dispatch.HandleRegistrationInput))
  /\ dom (user_registration_data s)
     ⊆ dom (user_registration_data
              (snd (Bot.handle_registration_input w c m s)))
  /\ dom (user_registration_data s)
     ⊆ dom (user_registration_data (snd (Bot.start_registration c m s)))
  /\ user_registration_data (snd (Bot.start_registration c m s))
     !! Bot.from_user_id m
     = Some {| waiting_for_login := true |}.
Proof.
  split; [|split; [|split; [|split; [|split; [|split]]]]].
  - intros Hno.
    assert (Hmap : user_registration_data
                     (snd (Bot.handle_registration_input w c m s))
                   = user_registration_data s).
    { rewrite handle_registration_input_flags.
      rewrite (register_user_unresolved _ _ _ _ Hno). cbn [fst].
      destruct (fst (Bot.get_user_stat w (strip (Bot.text m)) s))
        as [r|e]; reflexivity. }
    split; [exact Hmap|].
    intros Hwait m' Hp Hu.
    assert (Hw' : Bot.waits_for_login
                    (snd (Bot.handle_registration_input w c m s)) m' = true).
    { unfold Bot.waits_for_login in *.
      rewrite Hmap, Hp, Hu. cbn [String.eqb].
      apply andb_true_iff in Hwait as [_ Hw]. rewrite Hw. reflexivity. }
    split; [exact Hw'|].
    rewrite handler_for_registration_input.
    unfold Dispatch.chat_types_private. rewrite Hp. cbn [String.eqb].
    rewrite andb_true_r. tauto.
  - intros Hnone.
    rewrite handle_registration_input_unresolved; rewrite Hnone; [done|].
    intros st. discriminate.
  - intros e Hraise.
    rewrite handle_registration_input_unresolved; rewrite Hraise; [done|].
    intros st. discriminate.
  - intros data Hreg.
    assert (Hlook : user_registration_data
                      (snd (Bot.handle_registration_input w c m s))
                    !! Bot.from_user_id m
                    = Some {| waiting_for_login := false |}).
    { rewrite handle_registration_input_flags, Hreg.
      apply lookup_insert_eq. }
    split; [exact Hlook|]. split.
    + unfold Bot.waits_for_login. rewrite Hlook. apply andb_false_r.
    + intros m' Hu Hh. apply handler_for_registration_input in Hh as [Hw _].
      unfold Bot.waits_for_login in Hw. rewrite Hu, Hlook in Hw.
      rewrite andb_false_r in Hw. discriminate Hw.
  - rewrite handle_registration_input_flags.
    destruct (fst (Bot.register_user _ _ _ _)) as [[data|]|e]; [|done..].
    rewrite dom_insert_L. set_solver.
  - unfold Bot.start_registration, Bot.set_waiting. run_M. cbn.
    rewrite dom_insert_L. set_solver.
  - unfold Bot.start_registration, Bot.set_waiting. run_M. cbn.
    apply lookup_insert_eq.
Qed.

(** User 42 sent [/register] and then a nickname.  When the site does not
    know the nickname, the reply is the not-found text; when the site
    answers 404 the handler raises and nothing is sent.  Either way the
    next message, also one that reads [/stat s1mple], is taken as a
    nickname.  When the nickname resolves, the next message is not. *)
Lemma registration_flag_persists_witness :
  (fst (Bot.handle_registration_input
          (Sample.online Sample.page_not_found 0) Sample.texts
          (Sample.private 42 " nobody ") (Sample.awaiting 42))
   = Ok (Some false)
   /\ outbox (snd (Bot.handle_registration_input
                     (Sample.online Sample.page_not_found 0) Sample.texts
                     (Sample.private 42 " nobody ") (Sample.awaiting 42)))
      = [SendMessage 42 "Nickname not found";
         SendMessage 42 "Send your Faceit nickname"]
   /\ Dispatch.handler_for
        (snd (Bot.handle_registration_input
                (Sample.online Sample.page_not_found 0) Sample.texts
                (Sample.private 42 " nobody ") (Sample.awaiting 42)))
        (Sample.private 42 "s1mple")
      = Some Dispatch.HandleRegistrationInput)
  /\ (fst (Bot.handle_registration_input
             (Sample.missing_page Sample.page_not_found) Sample.texts
             (Sample.private 42 " nobody ") (Sample.awaiting 42))
      = Raise (TypeError "exceptions must derive from BaseException")
      /\ outbox (snd (Bot.handle_registration_input
                        (Sample.missing_page Sample.page_not_found)
                        Sample.texts
                        (Sample.private 42 " nobody ") (Sample.awaiting 42)))
         = [SendMessage 42 "Send your Faceit nickname"]
      /\ Dispatch.handler_for
           (snd (Bot.handle_registration_input
                   (Sample.missing_page Sample.page_not_found) Sample.texts
                   (Sample.private 42 " nobody ") (Sample.awaiting 42)))
           (Sample.private 42 "/stat s1mple")
         = Some Dispatch.HandleRegistrationInput)
  /\ (fst (Bot.handle_registration_input
             (Sample.online Sample.page 0) Sample.texts
             (Sample.private 42 " s1mple ") (Sample.awaiting 42))
      = Ok None
      /\ Dispatch.handler_for
           (snd (Bot.handle_registration_input
                   (Sample.online Sample.page 0) Sample.texts
                   (Sample.private 42 " s1mple ") (Sample.awaiting 42)))
           (Sample.private 42 "niko")
         <> Some Dispatch.HandleRegistrationInput).
Proof.
  split; [|split].
  - destruct (registration_flag_persists
                (Sample.online Sample.page_not_found 0) Sample.texts
                (Sample.private 42 " nobody ") (Sample.awaiting 42))
      as (Hflag & Hnone & _).
    split; [exact (Hnone eq_refl)|]. split; [reflexivity|].
    assert (Hno : forall st,
               fst (Bot.get_user_stat (Sample.online Sample.page_not_found 0)
                      (strip (Bot.text (Sample.private 42 " nobody ")))
                      (Sample.awaiting 42)) <> Ok (Some st))
      by (intros st; vm_compute; discriminate).
    destruct (Hflag Hno) as (_ & Hnext).
    destruct (Hnext eq_refl (Sample.private 42 "s1mple") eq_refl eq_refl)
      as (_ & Hiff).
    apply Hiff. repeat split; reflexivity.
  - destruct (registration_flag_persists
                (Sample.missing_page Sample.page_not_found) Sample.texts
                (Sample.private 42 " nobody ") (Sample.awaiting 42))
      as (Hflag & _ & Hraise & _).
    split; [exact (Hraise _ eq_refl)|]. split; [reflexivity|].
    assert (Hno : forall st,
               fst (Bot.get_user_stat
                      (Sample.missing_page Sample.page_not_found)
                      (strip (Bot.text (Sample.private 42 " nobody ")))
                      (Sample.awaiting 42)) <> Ok (Some st))
      by (intros st; vm_compute; discriminate).
    destruct (Hflag Hno) as (_ & Hnext).
    destruct (Hnext eq_refl (Sample.private 42 "/stat s1mple")
                eq_refl eq_refl) as (_ & Hiff).
    apply Hiff. repeat split; reflexivity.
  - destruct (registration_flag_persists
                (Sample.online Sample.page 0) Sample.texts
                (Sample.private 42 " s1mple ") (Sample.awaiting 42))
      as (_ & _ & _ & Hdone & _).
    split; [reflexivity|].
    destruct (Hdone _ eq_refl) as (_ & _ & Hnot).
    exact (Hnot (Sample.private 42 "niko") eq_refl).
Defined.

(** * Further properties *)

Import Seen.

(** ** Loading images *)

Lemma load_image_safe_result w url dims s :
  load_image_safe w url dims s = (Ok (Loaded url dims false), log_request url s)
  \/ (exists msg,
        load_image_safe w url dims s
        = (Raise (ImageLoadError msg), log_request url s)).
Proof.
  unfold load_image_safe, requests_get. run_M.
  destruct (respond w url) as [resp|e]; cbn [is_Exception].
  - destruct (raise_for_status resp) as [[]|e].
    + match goal with |- context [if ?b then _ else _] => destruct b end.
      * destruct (svg2png_ok w (body resp)); cbn; eauto.
      * destruct (image_open_ok w (body resp)); cbn; eauto.
    + destruct (is_RequestException e); cbn; eauto.
  - destruct (is_RequestException e); cbn; eauto.
Qed.

(** What a load answers does not depend on the state it runs in. *)
Lemma load_image_safe_answer w url dims s s' :
  fst (load_image_safe w url dims s) = fst (load_image_safe w url dims s').
Proof.
  unfold load_image_safe, requests_get. run_M.
  destruct (respond w url) as [resp|e]; cbn [is_Exception].
  - destruct (raise_for_status resp) as [[]|e].
    + match goal with |- context [if ?b then _ else _] => destruct b end.
      * destruct (svg2png_ok w (body resp)); reflexivity.
      * destruct (image_open_ok w (body resp)); reflexivity.
    + destruct (is_RequestException e); reflexivity.
  - destruct (is_RequestException e); reflexivity.
Qed.

(** X1. [load_image_safe] sends exactly one request whatever happens, the
    only exception it lets out is [ImageLoadError], and a picture it
    returns has the size asked for. *)
Theorem load_image_safe_only_ImageLoadError w url dims s :
  snd (load_image_safe w url dims s) = log_request url s
  /\ (forall e,
        fst (load_image_safe w url dims s) = Raise e ->
        is_ImageLoadError e = true)
  /\ (forall p,
        fst (load_image_safe w url dims s) = Ok p ->
        p = Loaded url dims false).
Proof.
  destruct (load_image_safe_result w url dims s) as [-> | [msg ->]];
    cbn [fst snd]; (split; [reflexivity|]); split;
    intros x H; try discriminate H; injection H as <-; reflexivity.
Qed.

(** ** The card *)

(** X2. Given the three URL keys, the font files and tables that render,
    [generate_player_card] returns a 1600 x 820 image whatever becomes of
    the three image loads: it sends one request per image, avatar, flag,
    level in that order, and pastes at (50, 50), (220, 55) and (220, 110)
    what was loaded (the avatar cut to a circle) or, for each load that
    raised, that image's own placeholder. *)
Theorem card_renders_whatever_the_images w data s a f l t1 t2 :
  avatar_url data = Some a -> flag_url data = Some f ->
  level_url data = Some l ->
  (forall path, font_file_ok w path = true) ->
  draw_tables w 315 Sample.bold28 Sample.bold24 Sample.medium22
    (enumerate (view1_stats data)) = Ok t1 ->
  draw_tables w 590 Sample.bold28 Sample.bold24 Sample.medium22
    (enumerate (view2_stats data)) = Ok t2 ->
  exists rest,
    generate_player_card w data s
    = (Ok {| img_width := 1600; img_height := 820;
             background := (30, 30, 30);
             drawn :=
               Paste (pasted (fst (load_image_safe w a (150, 150) s)) true
                        (Placeholder (150, 150) (100, 100, 100, 255)))
                     (50, 50)
               :: Paste (pasted (fst (load_image_safe w f (60, 45) s)) false
                           (Placeholder (60, 45) (200, 100, 100, 255)))
                        (220, 55)
               :: Paste (pasted (fst (load_image_safe w l (70, 70) s)) false
                           (Placeholder (45, 45) (100, 200, 100, 255)))
                        (220, 110)
               :: rest |},
       log_request l (log_request f (log_request a s))).
Proof.
  intros Ha Hf Hl Hfont H1 H2.
  rewrite (load_image_safe_answer w f (60, 45) s (log_request a s)).
  rewrite (load_image_safe_answer w l (70, 70) s
             (log_request f (log_request a s))).
  unfold generate_player_card, card_body, truetype. run_M.
  rewrite !Hfont, Ha, Hf, Hl. cbn [getitem].
  change (300 - 40 + 50 + 5) with 315.
  change (315 + 180 + 40 + 50 + 5) with 590.
  fold Sample.bold28 Sample.bold24 Sample.medium22. rewrite H1, H2.
  destruct (load_image_safe_result w a (150, 150) s) as [-> | [m1 ->]];
    cbn [is_ImageLoadError fst pasted];
    destruct (load_image_safe_result w f (60, 45) (log_request a s))
      as [-> | [m2 ->]];
    cbn [is_ImageLoadError fst pasted];
    destruct (load_image_safe_result w l (70, 70)
                (log_request f (log_request a s))) as [-> | [m3 ->]];
    cbn [is_ImageLoadError fst pasted];
    eexists; reflexivity.
Qed.

(** With the flag's request timing out, the flag alone is replaced. *)
Lemma card_renders_whatever_the_images_witness :
  exists rest,
    generate_player_card Sample2.flag_times_out Sample2.stats Sample.fresh
    = (Ok {| img_width := 1600; img_height := 820;
             background := (30, 30, 30);
             drawn :=
               Paste (Loaded "https://cdn.example/avatar.png" (150, 150) true)
                     (50, 50)
               :: Paste (Placeholder (60, 45) (200, 100, 100, 255)) (220, 55)
               :: Paste (Loaded
                           "https://faceitanalyser.com/static/levels/10.svg"
                           (70, 70) false) (220, 110)
               :: rest |},
       log_request "https://faceitanalyser.com/static/levels/10.svg"
         (log_request "https://faceitanalyser.com/static/flags/kz.svg"
            (log_request "https://cdn.example/avatar.png" Sample.fresh))).
Proof.
  destruct (card_renders_whatever_the_images Sample2.flag_times_out
              Sample2.stats Sample.fresh _ _ _ _ _ eq_refl eq_refl eq_refl
              (fun _ => eq_refl) eq_refl eq_refl) as [rest H].
  exists rest. exact H.
Defined.

(** With nothing reachable the three placeholders stand on the card. *)
Lemma card_with_placeholders_witness :
  exists img s',
    generate_player_card (Sample.offline Sample.page) Sample2.stats
      Sample.fresh = (Ok img, s')
    /\ img_width img = 1600 /\ img_height img = 820
    /\ firstn 3 (drawn img) = placeholders
    /\ requests s'
       = [ "https://faceitanalyser.com/static/levels/10.svg";
           "https://faceitanalyser.com/static/flags/kz.svg";
           "https://cdn.example/avatar.png" ].
Proof.
  exact (card_with_placeholders (Sample.offline Sample.page) Sample2.stats
           Sample.fresh _ _ _ _ _ eq_refl eq_refl eq_refl
           (fun _ => eq_refl) (fun _ => eq_refl) eq_refl eq_refl).
Defined.

(** The record of a page with a single level image has no [level_url]. *)
Lemma card_needs_all_urls_witness :
  exists msg s',
    generate_player_card (Sample.online Sample.page 0)
      {| avatar_url := avatar_url Sample2.stats;
         flag_url := flag_url Sample2.stats;
         level_url := None;
         name := "s1mple"; elo := "3021 ELO";
         view1_stats := []; view2_stats := [] |}
      Sample.fresh = (Raise (Exception msg), s').
Proof.
  apply card_needs_all_urls. right. right. reflexivity.
Defined.

(** X5. When one of the two font files cannot be opened,
    [generate_player_card] raises before any image is requested: the state
    is as it was. *)
Theorem card_fails_without_fonts w data s :
  font_file_ok w "Montserrat-Font/Montserrat-Bold.ttf" = false
  \/ font_file_ok w "Montserrat-Font/Montserrat-Medium.ttf" = false ->
  generate_player_card w data s
  = (Raise (Exception
              "Ошибка при генерации карточки: cannot open resource"), s).
Proof.
  intros H. unfold generate_player_card, card_body, truetype. run_M.
  destruct (font_file_ok w "Montserrat-Font/Montserrat-Bold.ttf");
    [|reflexivity].
  destruct H as [H | ->]; [discriminate H | reflexivity].
Qed.

Lemma card_fails_without_fonts_witness :
  generate_player_card Sample2.no_bold_font Sample2.stats Sample.fresh
  = (Raise (Exception
              "Ошибка при генерации карточки: cannot open resource"),
     Sample.fresh).
Proof.
  apply card_fails_without_fonts. left. reflexivity.
Defined.

Lemma draw_stat_table_incomplete w x y sb tw th tf stf svf :
  incomplete sb ->
  exists key,
    draw_stat_table w x y sb tw th tf stf svf = Raise (KeyError key).
Proof.
  unfold incomplete, draw_stat_table, fill_color, fill_color_with.
  destruct sb as [[t|] [v|] its]; cbn [title main_value getitem];
    intros [H | H]; try discriminate H;
    cbn [mbind result_bind Py.bind]; eauto.
  all: destruct (in_list t ["Avg. KDR"; "FA Rating"]);
    cbn [mbind result_bind Py.bind]; eauto.
  all: destruct (String.eqb t "Winrate");
    cbn [mbind result_bind Py.bind]; eauto.
Qed.

Lemma draw_tables_incomplete w ty tf stf svf tables :
  (exists i sb, In (i, sb) tables /\ incomplete sb) ->
  exists e, draw_tables w ty tf stf svf tables = Raise e.
Proof.
  induction tables as [|[j sb'] tables IH]; intros (i & sb & Hin & Hinc);
    [destruct Hin|].
  cbn [draw_tables].
  destruct (draw_stat_table w _ ty sb' 350 180 tf stf svf) as [ops|e] eqn:Hd;
    cbn [mbind result_bind Py.bind]; [|eauto].
  destruct Hin as [[= -> ->] | Hin].
  - destruct (draw_stat_table_incomplete w (50 + Z.of_nat i * (350 + 30)) ty
                sb 350 180 tf stf svf Hinc) as [key Hk].
    rewrite Hk in Hd. discriminate.
  - destruct IH as [e ->]; [eauto|]. cbn. eauto.
Qed.

Lemma In_enumerate {A} (x : A) (l : list A) :
  In x l -> exists i, In (i, x) (enumerate l).
Proof.
  unfold enumerate. generalize 0%nat.
  induction l as [|a l IH]; intros k Hin; [destruct Hin|].
  cbn [length seq combine]. destruct Hin as [-> | Hin].
  - exists k. left. reflexivity.
  - destruct (IH (S k) Hin) as [i Hi]. exists i. right. exact Hi.
Qed.

(** X6. The extractor keeps a block whose title span or main-value span
    was missing, and the renderer cannot draw it: a record with such a
    block in either view makes [generate_player_card] raise. *)
Theorem card_fails_on_incomplete_block w data s sb :
  In sb (view1_stats data) \/ In sb (view2_stats data) ->
  incomplete sb ->
  exists msg s',
    generate_player_card w data s = (Raise (Exception msg), s').
Proof.
  intros Hin Hinc.
  enough (exists e s', card_body w data s = (Raise e, s')) as (e & s' & H).
  { do 2 eexists. apply generate_player_card_raises, H. }
  unfold card_body, truetype. run_M.
  destruct (font_file_ok w "Montserrat-Font/Montserrat-Bold.ttf");
    [|eauto].
  destruct (font_file_ok w "Montserrat-Font/Montserrat-Medium.ttf");
    [|eauto].
  destruct (avatar_url data) as [a|]; cbn [getitem]; [|eauto].
  destruct (load_image_safe_cases w a (150, 150) s) as [[p ->]|[m ->]];
    cbn [is_ImageLoadError].
  all: destruct (flag_url data) as [f|]; cbn [getitem]; [|eauto].
  all: destruct (load_image_safe_cases w f (60, 45) (log_request a s))
         as [[q ->]|[n ->]]; cbn [is_ImageLoadError].
  all: destruct (level_url data) as [l|]; cbn [getitem]; [|eauto].
  all: destruct (load_image_safe_cases w l (70, 70)
                   (log_request f (log_request a s)))
         as [[r ->]|[j ->]]; cbn [is_ImageLoadError].
  all: destruct Hin as [Hin | Hin];
    apply In_enumerate in Hin as [i Hi].
  all: match goal with
       | |- context [draw_tables ?w' ?ty ?tf ?stf ?svf
                       (enumerate (view1_stats ?d))] =>
           first
             [ destruct (draw_tables_incomplete w' ty tf stf svf
                           (enumerate (view1_stats d))) as [e ->];
               [eauto|]; eauto; fail
             | destruct (draw_tables w' ty tf stf svf
                           (enumerate (view1_stats d))); [|eauto] ]
       end.
  all: match goal with
       | |- context [draw_tables ?w' ?ty ?tf ?stf ?svf
                       (enumerate (view2_stats ?d))] =>
           destruct (draw_tables_incomplete w' ty tf stf svf
                       (enumerate (view2_stats d))) as [e ->];
           [eauto|]; eauto
       end.
Qed.

(** The extracted block lacks [main_value]; the card is not drawn. *)
Lemma card_fails_on_incomplete_block_witness :
  main_value (parse_block Sample2.headless_block) = None
  /\ exists msg s',
       generate_player_card (Sample.online Sample.page 0)
         Sample2.stats_with_headless_block Sample.fresh
       = (Raise (Exception msg), s').
Proof.
  split; [reflexivity|].
  apply (card_fails_on_incomplete_block _ _ _
           (parse_block Sample2.headless_block)).
  - right. left. reflexivity.
  - right. reflexivity.
Defined.

(** ** Where tables and rows are put *)

Lemma row_anchors_of_rows x y tw f (l : list item) (k : nat) :
  row_anchors (flat_map (item_row x y tw f)
                 (combine (seq k (length l)) l))
  = map (fun i => (x + tw - 20, y + 95 + Z.of_nat i * 25))
        (seq k (length l)).
Proof.
  revert k. induction l as [|it l IH]; intros k; [reflexivity|].
  cbn [length seq combine flat_map map item_row row_anchors app].
  f_equal. apply IH.
Qed.

Lemma boxes_of_rows x y tw f (l : list (nat * item)) :
  boxes (flat_map (item_row x y tw f) l) = [].
Proof.
  induction l as [|[i it] l IH]; [reflexivity|]. cbn. exact IH.
Qed.

Lemma draw_stat_table_layout w x y sb tw th tf stf svf ops :
  draw_stat_table w x y sb tw th tf stf svf = Ok ops ->
  boxes ops = [(x, y, x + tw, y + th)]
  /\ row_anchors ops
     = map (fun i => (x + tw - 20, y + 95 + Z.of_nat i * 25))
           (seq 0 (length (items sb))).
Proof.
  unfold draw_stat_table.
  destruct (getitem "title" (title sb)) as [t|]; [|discriminate].
  cbn [mbind result_bind Py.bind].
  destruct (fill_color sb) as [c|]; [|discriminate].
  destruct (getitem "main_value" (main_value sb)) as [v|]; [|discriminate].
  cbn [mbind result_bind Py.bind]. intros [= <-]. split.
  - cbn [boxes flat_map app]. fold (boxes (flat_map (item_row x y tw svf)
                                             (enumerate (items sb)))).
    rewrite boxes_of_rows. reflexivity.
  - cbn [row_anchors flat_map app]. apply row_anchors_of_rows.
Qed.

(** X8. [draw_stat_table] writes the rows of a block 25 units apart from
    95 below the table's top, however many items the block has: with the
    table height the card uses (180), the rows start inside the table's
    rectangle exactly when the block has at most four items. *)
Theorem item_rows_leave_the_table w x y sb tw tf stf svf ops :
  draw_stat_table w x y sb tw 180 tf stf svf = Ok ops ->
  row_anchors ops
  = map (fun i => (x + tw - 20, y + 95 + Z.of_nat i * 25))
        (seq 0 (length (items sb)))
  /\ (Forall (fun xy => snd xy < y + 180) (row_anchors ops)
      <-> (length (items sb) <= 4)%nat).
Proof.
  intros H. destruct (draw_stat_table_layout _ _ _ _ _ _ _ _ _ _ H)
    as [_ Hrows].
  split; [exact Hrows|]. rewrite Hrows, List.Forall_map, List.Forall_forall.
  split.
  - intros Hall.
    destruct (le_lt_dec (length (items sb)) 4) as [Hle|Hgt]; [exact Hle|].
    specialize (Hall 4%nat). cbn [snd] in Hall.
    assert (Hin : In 4%nat (seq 0 (length (items sb))))
      by (apply List.in_seq; lia).
    specialize (Hall Hin). lia.
  - intros Hle i Hi. apply List.in_seq in Hi. cbn [snd]. lia.
Qed.

Lemma draw_tables_boxes w ty tf stf svf (blocks : list stat_block) :
  forall (k : nat) ops,
    draw_tables w ty tf stf svf (combine (seq k (length blocks)) blocks)
    = Ok ops ->
    boxes ops
    = map (fun i => (50 + Z.of_nat i * 380, ty,
                     50 + Z.of_nat i * 380 + 350, ty + 180))
          (seq k (length blocks)).
Proof.
  induction blocks as [|sb blocks IH]; intros k ops.
  - cbn. intros [= <-]. reflexivity.
  - cbn [length seq combine draw_tables map].
    destruct (draw_stat_table w _ ty sb 350 180 tf stf svf) as [o|e] eqn:Hd;
      cbn [mbind result_bind Py.bind]; [|discriminate].
    destruct (draw_tables w ty tf stf svf _) as [more|e] eqn:Hm;
      cbn [mbind result_bind Py.bind]; [|discriminate].
    intros [= <-]. unfold boxes. rewrite List.flat_map_app.
    fold (boxes o) (boxes more).
    destruct (draw_stat_table_layout _ _ _ _ _ _ _ _ _ _ Hd) as [-> _].
    rewrite (IH _ _ Hm). reflexivity.
Qed.

(** X7. Each of the two loops of [generate_player_card] puts table [i] of
    its view in a 350 x 180 rectangle whose left edge is at 50 + 380 i, so
    neighbours are 30 apart; nothing bounds the number of tables, and the
    rectangles stay within the 1600 of the canvas exactly when the view
    has at most four blocks. *)
Theorem tables_in_a_row w ty tf stf svf (blocks : list stat_block) ops :
  draw_tables w ty tf stf svf (enumerate blocks) = Ok ops ->
  boxes ops
  = map (fun i => (50 + Z.of_nat i * 380, ty,
                   50 + Z.of_nat i * 380 + 350, ty + 180))
        (seq 0 (length blocks))
  /\ (Forall (fun box => right_edge box <= 1600) (boxes ops)
      <-> (length blocks <= 4)%nat).
Proof.
  intros H. pose proof (draw_tables_boxes _ _ _ _ _ _ _ _ H) as Hb.
  split; [exact Hb|]. rewrite Hb, List.Forall_map, List.Forall_forall.
  split.
  - intros Hall.
    destruct (le_lt_dec (length blocks) 4) as [Hle|Hgt]; [exact Hle|].
    assert (Hin : In 4%nat (seq 0 (length blocks)))
      by (apply List.in_seq; lia).
    specialize (Hall 4%nat Hin). cbn in Hall. lia.
  - intros Hle i Hi. apply List.in_seq in Hi. cbn [right_edge]. lia.
Qed.

(** The fifth row of a block of five starts at the table's bottom edge. *)
Lemma item_rows_leave_the_table_witness :
  exists ops,
    draw_stat_table (Sample.online Sample.page 0) 50 315 Sample2.five_items
      350 180 Sample.bold28 Sample.bold24 Sample.medium22 = Ok ops
    /\ row_anchors ops
       = [(380, 410); (380, 435); (380, 460); (380, 485); (380, 510)]
    /\ ~ Forall (fun xy => snd xy < 315 + 180) (row_anchors ops).
Proof.
  eexists. split; [reflexivity|].
  destruct (item_rows_leave_the_table (Sample.online Sample.page 0) 50 315
              Sample2.five_items 350 Sample.bold28 Sample.bold24
              Sample.medium22 _ eq_refl) as [Hrows Hfit].
  split; [exact Hrows|].
  intros Hall. apply Hfit in Hall. cbn in Hall. lia.
Defined.

(** The fifth table of a view of five ends at 1920, off the canvas. *)
Lemma tables_in_a_row_witness :
  exists ops,
    draw_tables (Sample.online Sample.page 0) 315 Sample.bold28 Sample.bold24
      Sample.medium22 (enumerate Sample2.five_blocks) = Ok ops
    /\ boxes ops
       = [ (50, 315, 400, 495); (430, 315, 780, 495); (810, 315, 1160, 495);
           (1190, 315, 1540, 495); (1570, 315, 1920, 495) ]
    /\ ~ Forall (fun box => right_edge box <= 1600) (boxes ops).
Proof.
  eexists. split; [reflexivity|].
  destruct (tables_in_a_row (Sample.online Sample.page 0) 315 Sample.bold28
              Sample.bold24 Sample.medium22 Sample2.five_blocks _ eq_refl)
    as [Hb Hfit].
  split; [exact Hb|].
  intros Hall. apply Hfit in Hall. cbn in Hall. lia.
Defined.

(** ** Fetching, once more *)

(** X10. [download_page] returns the body of the reply exactly when the
    request is answered with a status outside 400..599: the status is not
    compared with 200, so a 204 or a 304 is a page like any other. *)
Theorem download_page_returns_body w url s :
  (forall resp,
      respond w url = Ok resp -> ~ 400 <= status_code resp < 600 ->
      download_page w url s = (Ok (body resp), log_request url s))
  /\ (forall txt,
        fst (download_page w url s) = Ok txt ->
        exists resp,
          respond w url = Ok resp /\ txt = body resp
          /\ ~ 400 <= status_code resp < 600).
Proof.
  unfold download_page, requests_get, raise_for_status. run_M. split.
  - intros resp -> Hst.
    destruct (Z.leb_spec 400 (status_code resp)),
      (Z.ltb_spec (status_code resp) 600); cbn; try reflexivity; lia.
  - intros txt. destruct (respond w url) as [resp|e].
    + destruct (Z.leb_spec 400 (status_code resp)),
        (Z.ltb_spec (status_code resp) 600); cbn;
        try discriminate; intros [= <-]; exists resp;
        (split; [reflexivity|]); (split; [reflexivity|]); lia.
    + destruct (is_RequestException e); cbn; discriminate.
Qed.

(** ** The users table, once more *)

Lemma upsert_other now id n rows id' :
  id' <> id ->
  Bot.select_by_id id' (upsert now id n rows) = Bot.select_by_id id' rows.
Proof.
  intros Hne. unfold upsert.
  destruct (head (Bot.select_by_id id rows)) as [r|].
  - unfold Bot.select_by_id, Bot.update_user.
    induction rows as [|r0 rows IH]; [reflexivity|].
    cbn [map List.filter]. rewrite IH.
    destruct (Bot.has_id id r0) eqn:Hr; [|reflexivity].
    unfold Bot.has_id in *. cbn [telegram_id].
    apply Z.eqb_eq in Hr.
    destruct (Z.eqb_spec (telegram_id r0) id'); [congruence|reflexivity].
  - unfold Bot.select_by_id. rewrite List.filter_app. cbn.
    unfold Bot.has_id at 2. cbn.
    destruct (Z.eqb_spec id id'); [congruence|]. apply app_nil_r.
Qed.

Lemma upsert_head now id n rows :
  head (Bot.select_by_id id (upsert now id n rows)) = Some (user id n now).
Proof.
  unfold upsert.
  destruct (head (Bot.select_by_id id rows)) as [r|] eqn:Hh.
  - rewrite select_by_id_update.
    destruct (Bot.select_by_id id rows); [discriminate|reflexivity].
  - apply select_by_id_none in Hh as [_ Hn].
    unfold Bot.select_by_id. rewrite List.filter_app.
    fold (Bot.select_by_id id rows). rewrite (select_by_id_absent _ _ Hn).
    cbn. unfold Bot.has_id. cbn. rewrite Z.eqb_refl. reflexivity.
Qed.

(** What [register_user] leaves behind, in every environment: without a
    record returned only the request shows, with one the row is upserted. *)
Lemma register_user_cases w id n s :
  ((forall st, fst (Bot.register_user w id n s) <> Ok (Some st))
   /\ snd (Bot.register_user w id n s) = log_request (stats_url n) s)
  \/ (exists st,
        Bot.register_user w id n s
        = (Ok (Some st),
           set_users (upsert (current_timestamp w) id n (users s))
                     (log_request (stats_url n) s))).
Proof.
  unfold Bot.register_user. run_M.
  pose proof (get_user_stat_frame w n s) as Hf.
  destruct (Bot.get_user_stat w n s) as [[[st|]|e] sa];
    cbn [fst snd] in *; subst sa; try (left; split; [discriminate|done]).
  unfold Bot.sqlite3_connect, Bot.sql_step, Bot.close_connection,
    Bot.fetchone, upsert.
  run_M. cbn [users log_request set_open_connections].
  destruct (sqlite_fails w Connect); [left; split; [discriminate|done]|].
  destruct (sqlite_fails w ExecuteSelect);
    [left; split; [discriminate|done]|].
  destruct (bind_int_cases id) as [[_ ->]|[_ ->]]; run_M;
    [|left; split; [discriminate|done]].
  destruct (sqlite_fails w ExecuteWrite);
    [left; split; [discriminate|done]|].
  destruct (head (Bot.select_by_id id (users s))) as [r|] eqn:Hh.
  - destruct (sqlite_fails w Commit); [left; split; [discriminate|done]|].
    right. exists st. reflexivity.
  - unfold Bot.insert_user. apply select_by_id_none in Hh as [-> _].
    cbn [lift].
    destruct (sqlite_fails w Commit); [left; split; [discriminate|done]|].
    right. exists st. reflexivity.
Qed.

Lemma register_user_fails_softly w id n s st :
  int64 id ->
  fst (Bot.get_user_stat w n s) = Ok (Some st) ->
  (exists step, sqlite_fails w step = true) ->
  Bot.register_user w id n s = (Ok None, log_request (stats_url n) s).
Proof.
  intros Hid Hst [step Hstep]. unfold Bot.register_user. run_M.
  pose proof (get_user_stat_frame w n s) as Hf.
  destruct (Bot.get_user_stat w n s) as [r sa]. cbn [fst snd] in *.
  subst r sa.
  unfold Bot.sqlite3_connect, Bot.sql_step, Bot.close_connection,
    Bot.fetchone.
  rewrite (bind_int_in_range _ Hid). run_M. cbn [users log_request set_open_connections].
  destruct (sqlite_fails w Connect) eqn:H1; [reflexivity|].
  destruct (sqlite_fails w ExecuteSelect) eqn:H2; [reflexivity|].
  destruct (sqlite_fails w ExecuteWrite) eqn:H3; [reflexivity|].
  destruct (head (Bot.select_by_id id (users s))) as [r|] eqn:Hh.
  - destruct (sqlite_fails w Commit) eqn:H4; [reflexivity|].
    destruct step; congruence.
  - unfold Bot.insert_user. apply select_by_id_none in Hh as [-> _].
    cbn [lift]. destruct (sqlite_fails w Commit) eqn:H4; [reflexivity|].
    destruct step; congruence.
Qed.

(** X11. When the nickname resolves and SQLite raises at any point of the
    call (connecting, the query, the write or the commit),
    [register_user], called for a user id that SQLite can bind, returns
    [None], the rows are as before (nothing is half-written) and the
    connection is closed. *)
Theorem register_user_storage_failure w id n s st :
  int64 id ->
  fst (Bot.get_user_stat w n s) = Ok (Some st) ->
  (exists step, sqlite_fails w step = true) ->
  fst (Bot.register_user w id n s) = Ok None
  /\ users (snd (Bot.register_user w id n s)) = users s
  /\ open_connections (snd (Bot.register_user w id n s))
     = open_connections s.
Proof.
  intros Hid Hst Hfail.
  rewrite (register_user_fails_softly _ _ _ _ _ Hid Hst Hfail). done.
Qed.

(** X12. [register_user] never touches the row of another user, and the
    table keeps its key, in every environment and whatever the outcome. *)
Theorem register_user_other_rows w id n s :
  (forall id',
      id' <> id ->
      Bot.select_by_id id' (users (snd (Bot.register_user w id n s)))
      = Bot.select_by_id id' (users s))
  /\ (primary_key (users s) ->
      primary_key (users (snd (Bot.register_user w id n s)))).
Proof.
  destruct (register_user_cases w id n s) as [[_ ->] | [st ->]];
    cbn [snd users log_request set_users]; split; try done.
  - intros id' Hne. apply upsert_other, Hne.
  - apply upsert_primary_key.
Qed.

(** X13. Whatever happens, [register_user] sends exactly one request, the
    one for the nickname's page, leaves no connection open, sends nothing
    to Telegram and does not touch the registration flags. *)
Theorem register_user_frame w id n s :
  requests (snd (Bot.register_user w id n s)) = stats_url n :: requests s
  /\ open_connections (snd (Bot.register_user w id n s))
     = open_connections s
  /\ outbox (snd (Bot.register_user w id n s)) = outbox s
  /\ user_registration_data (snd (Bot.register_user w id n s))
     = user_registration_data s.
Proof.
  destruct (register_user_cases w id n s) as [[_ ->] | [st ->]]; done.
Qed.

(** User 42 changes the nickname while commits fail: the old row stays. *)
Lemma register_user_storage_failure_witness :
  fst (Bot.register_user Sample2.commit_fails 42 "niko" Sample2.registered)
  = Ok None
  /\ users (snd (Bot.register_user Sample2.commit_fails 42 "niko"
                   Sample2.registered))
     = [user 42 "s1mple" 100]
  /\ open_connections (snd (Bot.register_user Sample2.commit_fails 42 "niko"
                              Sample2.registered)) = 0%nat.
Proof.
  assert (H42 : int64 42) by (unfold int64; lia).
  exact (register_user_storage_failure Sample2.commit_fails 42 "niko"
           Sample2.registered _ H42 eq_refl (ex_intro _ Commit eq_refl)).
Defined.

Lemma lookup_reads_row w id s :
  int64 id ->
  sqlite_fails w Connect = false ->
  sqlite_fails w ExecuteSelect = false ->
  Bot.get_faceit_nickname_from_db w id s
  = (Ok (faceit_nickname <$> head (Bot.select_by_id id (users s))), s).
Proof.
  intros Hid Hc He.
  unfold Bot.get_faceit_nickname_from_db, Bot.sqlite3_connect, Bot.sql_step,
    Bot.close_connection, Bot.fetchone, set_open_connections.
  rewrite (bind_int_in_range _ Hid). run_M. rewrite Hc, He.
  destruct (head (Bot.select_by_id id (users s))); cbn;
    rewrite state_eta; reflexivity.
Qed.

(** What the lookup answers is decided by the environment, the id and the
    rows of that id. *)
Lemma lookup_by_rows w id s s' :
  Bot.select_by_id id (users s) = Bot.select_by_id id (users s') ->
  fst (Bot.get_faceit_nickname_from_db w id s)
  = fst (Bot.get_faceit_nickname_from_db w id s').
Proof.
  intros Hrows.
  unfold Bot.get_faceit_nickname_from_db, Bot.sqlite3_connect, Bot.sql_step,
    Bot.close_connection, Bot.fetchone, set_open_connections.
  run_M.
  destruct (sqlite_fails w Connect); [reflexivity|].
  destruct (sqlite_fails w ExecuteSelect); [reflexivity|].
  destruct (bind_int_cases id) as [[_ ->]|[_ ->]]; run_M; [|reflexivity].
  cbn [users]. rewrite Hrows.
  destruct (head (Bot.select_by_id id (users s'))); reflexivity.
Qed.

(** A registration that returns a record has bound the id. *)
Lemma register_user_record_int64 w id n s st :
  fst (Bot.register_user w id n s) = Ok (Some st) -> int64 id.
Proof.
  unfold Bot.register_user. run_M.
  destruct (Bot.get_user_stat w n s) as [[[st'|]|e] sa]; cbn [fst];
    [|discriminate..].
  unfold Bot.sqlite3_connect, Bot.sql_step, Bot.close_connection,
    Bot.fetchone.
  run_M.
  destruct (sqlite_fails w Connect); [discriminate|].
  destruct (sqlite_fails w ExecuteSelect); [discriminate|].
  destruct (bind_int_cases id) as [[Hin _]|[_ ->]]; run_M;
    [intros _; exact Hin|discriminate].
Qed.

(** X14. What [register_user] stores, [get_faceit_nickname_from_db]
    reads back: after a registration that returned a record, the lookup of
    that id answers the nickname just registered, and the lookup of any
    other id answers what it answered before. *)
Theorem register_then_lookup w w' id n s st :
  fst (Bot.register_user w id n s) = Ok (Some st) ->
  sqlite_fails w' Connect = false ->
  sqlite_fails w' ExecuteSelect = false ->
  fst (Bot.get_faceit_nickname_from_db w' id
         (snd (Bot.register_user w id n s))) = Ok (Some n)
  /\ (forall id',
        id' <> id ->
        fst (Bot.get_faceit_nickname_from_db w' id'
               (snd (Bot.register_user w id n s)))
        = fst (Bot.get_faceit_nickname_from_db w' id' s)).
Proof.
  intros Hreg Hc He.
  pose proof (register_user_record_int64 _ _ _ _ _ Hreg) as Hid.
  rewrite lookup_reads_row by assumption.
  cbn [fst].
  destruct (register_user_cases w id n s) as [[Hno _] | [st' ->]];
    [destruct (Hno st Hreg)|].
  cbn [snd users set_users log_request]. split.
  - rewrite upsert_head. reflexivity.
  - intros id' Hne. apply lookup_by_rows.
    cbn [users set_users log_request].
    apply upsert_other, Hne.
Qed.

(** After the registration of user 42 the lookup of 42 answers "s1mple",
    the lookup of 7 nothing. *)
Lemma register_then_lookup_witness :
  fst (Bot.get_faceit_nickname_from_db (Sample.online Sample.page 0) 42
         Sample2.registered) = Ok (Some "s1mple")
  /\ fst (Bot.get_faceit_nickname_from_db (Sample.online Sample.page 0) 7
            Sample2.registered) = Ok None.
Proof.
  destruct (register_then_lookup (Sample.online Sample.page 100)
              (Sample.online Sample.page 0) 42 "s1mple" Sample.fresh _
              eq_refl eq_refl eq_refl) as [Hsame Hother].
  split; [exact Hsame|].
  exact (Hother 7 ltac:(discriminate)).
Defined.

(** ** The registration dialogue, once more *)

(** Rendering touches nothing but the list of requests sent. *)
Lemma generate_player_card_frame w data s :
  users (snd (generate_player_card w data s)) = users s
  /\ outbox (snd (generate_player_card w data s)) = outbox s
  /\ user_registration_data (snd (generate_player_card w data s))
     = user_registration_data s
  /\ open_connections (snd (generate_player_card w data s))
     = open_connections s.
Proof.
  unfold generate_player_card, card_body, truetype. run_M.
  destruct (font_file_ok w "Montserrat-Font/Montserrat-Bold.ttf"); [|done].
  destruct (font_file_ok w "Montserrat-Font/Montserrat-Medium.ttf");
    [|done].
  destruct (avatar_url data) as [a|]; cbn [getitem]; [|done].
  destruct (load_image_safe_cases w a (150, 150) s) as [[p ->]|[m ->]];
    cbn [is_ImageLoadError].
  all: destruct (flag_url data) as [f|]; cbn [getitem]; [|done].
  all: destruct (load_image_safe_cases w f (60, 45) (log_request a s))
         as [[q ->]|[k ->]]; cbn [is_ImageLoadError].
  all: destruct (level_url data) as [l|]; cbn [getitem]; [|done].
  all: destruct (load_image_safe_cases w l (70, 70)
                   (log_request f (log_request a s)))
         as [[r ->]|[j ->]]; cbn [is_ImageLoadError].
  all: destruct (draw_tables w _ _ _ _ (enumerate (view1_stats data)));
         [|done].
  all: destruct (draw_tables w _ _ _ _ (enumerate (view2_stats data)));
         done.
Qed.

(** X15. When the nickname resolves but SQLite raises during the
    registration, [handle_registration_input] tells the user, one with an
    id that SQLite can bind, that the nickname was not found: it sends
    [NICKNAME_NOT_FOUND], returns [False], and changes nothing else but the
    list of requests. *)
Theorem storage_failure_reported_as_not_found w c m s st :
  int64 (Bot.from_user_id m) ->
  fst (Bot.get_user_stat w (strip (Bot.text m)) s) = Ok (Some st) ->
  (exists step, sqlite_fails w step = true) ->
  Bot.handle_registration_input w c m s
  = (Ok (Some false),
     send (SendMessage (Bot.chat_id m) (Bot.NICKNAME_NOT_FOUND c))
          (log_request (stats_url (strip (Bot.text m))) s)).
Proof.
  intros Hid Hst Hfail. unfold Bot.handle_registration_input. run_M.
  rewrite (register_user_fails_softly _ _ _ _ _ Hid Hst Hfail). reflexivity.
Qed.

Lemma storage_failure_reported_as_not_found_witness :
  outbox (snd (Bot.handle_registration_input Sample2.commit_fails
                 Sample.texts (Sample.private 42 "s1mple")
                 (Sample.awaiting 42)))
  = [SendMessage 42 "Nickname not found";
     SendMessage 42 "Send your Faceit nickname"]
  /\ users (snd (Bot.handle_registration_input Sample2.commit_fails
                   Sample.texts (Sample.private 42 "s1mple")
                   (Sample.awaiting 42))) = [].
Proof.
  assert (H42 : int64 (Bot.from_user_id (Sample.private 42 "s1mple")))
    by (unfold int64; cbn; lia).
  rewrite (storage_failure_reported_as_not_found Sample2.commit_fails
             Sample.texts (Sample.private 42 "s1mple") (Sample.awaiting 42)
             _ H42 eq_refl (ex_intro _ Commit eq_refl)).
  split; reflexivity.
Defined.

(** X16. When [register_user] returns a record that lacks one of the three
    URL keys, [handle_registration_input] raises while drawing the card:
    by then the row is committed and the user's flag is [False], and
    nothing is sent to the user. *)
Theorem registered_without_reply w c m s data :
  fst (Bot.register_user w (Bot.from_user_id m) (strip (Bot.text m)) s)
  = Ok (Some data) ->
  avatar_url data = None \/ flag_url data = None \/ level_url data = None ->
  exists msg,
    fst (Bot.handle_registration_input w c m s) = Raise (Exception msg)
    /\ outbox (snd (Bot.handle_registration_input w c m s)) = outbox s
    /\ users (snd (Bot.handle_registration_input w c m s))
       = upsert (current_timestamp w) (Bot.from_user_id m)
           (strip (Bot.text m)) (users s)
    /\ user_registration_data (snd (Bot.handle_registration_input w c m s))
       !! Bot.from_user_id m
       = Some {| waiting_for_login := false |}.
Proof.
  intros Hreg Hmiss. unfold Bot.handle_registration_input. run_M.
  destruct (register_user_cases w (Bot.from_user_id m) (strip (Bot.text m)) s)
    as [[Hno _] | [st Hst]]; [destruct (Hno data Hreg)|].
  rewrite Hst in *. cbn [fst] in Hreg. injection Hreg as ->.
  match goal with
  | |- context [generate_player_card w data ?s0] =>
      destruct (card_needs_all_urls w data s0 Hmiss) as (msg & s' & Hgen);
      destruct (generate_player_card_frame w data s0) as (Hu & Ho & Hr & _);
      rewrite Hgen in *; cbn [fst snd] in *
  end.
  exists msg. split; [reflexivity|]. rewrite Hu, Ho, Hr.
  unfold Bot.set_waiting. cbn. split; [reflexivity|].
  split; [reflexivity|]. apply lookup_insert_eq.
Qed.

(** User 42 registers with a profile that has no avatar: the row is
    written, the flag is cleared, no message goes out. *)
Lemma registered_without_reply_witness :
  exists msg,
    fst (Bot.handle_registration_input
           (Sample.online Sample.page_without_avatar 100) Sample.texts
           (Sample.private 42 "s1mple") (Sample.awaiting 42))
    = Raise (Exception msg)
    /\ outbox (snd (Bot.handle_registration_input
                      (Sample.online Sample.page_without_avatar 100)
                      Sample.texts (Sample.private 42 "s1mple")
                      (Sample.awaiting 42)))
       = [SendMessage 42 "Send your Faceit nickname"]
    /\ users (snd (Bot.handle_registration_input
                     (Sample.online Sample.page_without_avatar 100)
                     Sample.texts (Sample.private 42 "s1mple")
                     (Sample.awaiting 42)))
       = [user 42 "s1mple" 100].
Proof.
  destruct (registered_without_reply
              (Sample.online Sample.page_without_avatar 100) Sample.texts
              (Sample.private 42 "s1mple") (Sample.awaiting 42) _ eq_refl
              (or_introl eq_refl)) as (msg & Hr & Ho & Hu & _).
  exists msg. split; [exact Hr|]. split; [exact Ho|]. exact Hu.
Defined.

(** ** The [/stat] command *)

Example split_examples :
  Cmd.split "/stat  s1mple extra " = ["/stat"; "s1mple"; "extra"]
  /\ Cmd.split "/stat" = ["/stat"] /\ Cmd.split "  " = [].
Proof. repeat split; reflexivity. Qed.

Lemma lookup_result w id s :
  int64 id ->
  Bot.get_faceit_nickname_from_db w id s
  = (Ok (if sqlite_fails w Connect || sqlite_fails w ExecuteSelect
         then None
         else faceit_nickname <$> head (Bot.select_by_id id (users s))), s).
Proof.
  intros Hid.
  unfold Bot.get_faceit_nickname_from_db, Bot.sqlite3_connect, Bot.sql_step,
    Bot.close_connection, Bot.fetchone, set_open_connections.
  rewrite (bind_int_in_range _ Hid). run_M.
  destruct (sqlite_fails w Connect); [reflexivity|].
  destruct (sqlite_fails w ExecuteSelect); cbn;
    [rewrite state_eta; reflexivity|].
  destruct (head (Bot.select_by_id id (users s))); cbn;
    rewrite state_eta; reflexivity.
Qed.

Lemma draw_tables_with_sqlite faults w ty tf stf svf tables :
  draw_tables (Cmd.with_sqlite faults w) ty tf stf svf tables
  = draw_tables w ty tf stf svf tables.
Proof.
  induction tables as [|[i sb] tables IH]; [reflexivity|].
  cbn [draw_tables]. rewrite IH. reflexivity.
Qed.

Lemma generate_player_card_with_sqlite faults w data s :
  generate_player_card (Cmd.with_sqlite faults w) data s
  = generate_player_card w data s.
Proof.
  unfold generate_player_card, card_body, truetype. run_M.
  change (font_file_ok (Cmd.with_sqlite faults w)) with (font_file_ok w).
  destruct (font_file_ok w "Montserrat-Font/Montserrat-Bold.ttf");
    [|reflexivity].
  destruct (font_file_ok w "Montserrat-Font/Montserrat-Medium.ttf");
    [|reflexivity].
  rewrite !draw_tables_with_sqlite. reflexivity.
Qed.

(** X17. [/stat] followed by a nickname does not go to the database: the
    handler does the same in every environment that differs only in
    where SQLite fails, and it leaves the table alone. *)
Theorem stat_with_argument_skips_database w c t m s faults :
  (1 < length (Cmd.split (Bot.text m)))%nat ->
  Cmd.handle_stat_command (Cmd.with_sqlite faults w) c t m s
  = Cmd.handle_stat_command w c t m s
  /\ users (snd (Cmd.handle_stat_command w c t m s)) = users s
  /\ open_connections (snd (Cmd.handle_stat_command w c t m s))
     = open_connections s.
Proof.
  intros Harg. apply Nat.ltb_lt in Harg.
  unfold Cmd.handle_stat_command. rewrite Harg. run_M.
  change (Bot.get_user_stat (Cmd.with_sqlite faults w))
    with (Bot.get_user_stat w).
  pose proof (get_user_stat_frame w
                (nth 1 (Cmd.split (Bot.text m)) EmptyString) s) as Hf.
  destruct (Bot.get_user_stat w _ s) as [[[data|]|e] sa];
    cbn [fst snd] in *; subst sa; try done.
  rewrite generate_player_card_with_sqlite.
  match goal with
  | |- context [generate_player_card w data ?s0] =>
      destruct (generate_player_card_frame w data s0) as (Hu & _ & _ & Hc);
      destruct (generate_player_card w data s0) as [[img|e] sb]
  end; cbn [fst snd] in *; unfold Bot.send_high_quality_photo; run_M;
    cbn; rewrite Hu, Hc; done.
Qed.

(** With the database gone, [/stat s1mple] still draws the card. *)
Lemma stat_with_argument_skips_database_witness :
  exists img,
    outbox (snd (Cmd.handle_stat_command (Sample.no_database Sample.page)
                   Sample.texts Cmd.stat_texts
                   (Sample.private 7 "/stat s1mple") Sample.fresh))
    = [SendPhoto 7 img "Statistics of <b>s1mple</b>"].
Proof.
  destruct (stat_with_argument_skips_database (Sample.online Sample.page 0)
              Sample.texts Cmd.stat_texts (Sample.private 7 "/stat s1mple")
              Sample.fresh (fun _ => true) ltac:(vm_compute; lia)) as [H _].
  change (Cmd.with_sqlite (fun _ => true) (Sample.online Sample.page 0))
    with (Sample.no_database Sample.page) in H.
  rewrite H. eexists. reflexivity.
Defined.

(** X18. [/stat] without a nickname, from a user with no row or while
    SQLite fails at connecting or at the query, is answered with
    [NOT_REGISTERED] and nothing else happens: no request is sent, and a
    failing database looks like a missing registration.  The user's id is
    one that SQLite can bind. *)
Theorem stat_of_unregistered_user w c t m s :
  int64 (Bot.from_user_id m) ->
  (length (Cmd.split (Bot.text m)) <= 1)%nat ->
  Bot.select_by_id (Bot.from_user_id m) (users s) = []
  \/ sqlite_fails w Connect = true \/ sqlite_fails w ExecuteSelect = true ->
  Cmd.handle_stat_command w c t m s
  = (Ok (Some false),
     send (SendMessage (Bot.chat_id m) (Cmd.NOT_REGISTERED t)) s).
Proof.
  intros Hid Harg Hno. apply Nat.ltb_ge in Harg.
  unfold Cmd.handle_stat_command. rewrite Harg. run_M.
  rewrite (lookup_result _ _ _ Hid).
  destruct Hno as [-> | [-> | ->]]; rewrite ?orb_true_r; cbn [orb];
    [destruct (sqlite_fails w Connect || sqlite_fails w ExecuteSelect)|..];
    reflexivity.
Qed.

Lemma stat_of_unregistered_user_witness :
  Cmd.handle_stat_command (Sample.no_database Sample.page) Sample.texts
    Cmd.stat_texts (Sample.private 42 "/stat") Sample2.registered
  = (Ok (Some false),
     send (SendMessage 42 "You are not registered") Sample2.registered).
Proof.
  apply stat_of_unregistered_user;
    [unfold int64; cbn; lia|vm_compute; lia|].
  right. left. reflexivity.
Defined.

(** X19. For a registered user whose stored nickname is one word, with
    SQLite working, [/stat] alone does what [/stat] followed by that
    nickname does.  The restriction matters: the handler takes the word
    after the command, so a stored nickname with a blank inside is looked
    up whole by [/stat] alone and by its first word when it is typed.  The
    user's id is one that SQLite can bind. *)
Theorem stat_uses_registered_nickname w c t m m' s row :
  int64 (Bot.from_user_id m) ->
  (length (Cmd.split (Bot.text m)) <= 1)%nat ->
  sqlite_fails w Connect = false ->
  sqlite_fails w ExecuteSelect = false ->
  head (Bot.select_by_id (Bot.from_user_id m) (users s)) = Some row ->
  Cmd.split (faceit_nickname row) = [faceit_nickname row] ->
  Bot.text m' = "/stat " ++ faceit_nickname row ->
  Bot.chat_id m' = Bot.chat_id m ->
  Cmd.handle_stat_command w c t m s = Cmd.handle_stat_command w c t m' s.
Proof.
  intros Hid Harg Hc He Hrow Hword Htext Hchat. apply Nat.ltb_ge in Harg.
  assert (Hsplit : Cmd.split (Bot.text m')
                   = ["/stat"; faceit_nickname row]).
  { rewrite Htext.
    change (Cmd.split ("/stat " ++ faceit_nickname row))
      with ("/stat" :: Cmd.split (faceit_nickname row)).
    rewrite Hword. reflexivity. }
  unfold Cmd.handle_stat_command. rewrite Harg, Hsplit, Hchat. run_M.
  rewrite (lookup_result _ _ _ Hid), Hc, He, Hrow. reflexivity.
Qed.

(** With "s1mple" stored the two messages do the same.  With "foo bar"
    stored they do not: after the request of the registration, [/stat]
    asks the site for "foo bar" and [/stat foo bar] asks it for "foo". *)
Lemma stat_uses_registered_nickname_witness :
  Cmd.handle_stat_command (Sample.online Sample.page 0) Sample.texts
    Cmd.stat_texts (Sample.private 42 "/stat") Sample2.registered
  = Cmd.handle_stat_command (Sample.online Sample.page 0) Sample.texts
      Cmd.stat_texts (Sample.private 42 "/stat s1mple") Sample2.registered
  /\ requests (snd (Cmd.handle_stat_command (Sample.online Sample.page 0)
                      Sample.texts Cmd.stat_texts
                      (Sample.private 42 "/stat")
                      Sample2.registered_two_words))
     = [ "https://faceitanalyser.com/static/levels/10.svg";
         "https://faceitanalyser.com/static/flags/kz.svg";
         "https://cdn.example/avatar.png";
         stats_url "foo bar";
         stats_url "foo bar" ]
  /\ requests (snd (Cmd.handle_stat_command (Sample.online Sample.page 0)
                      Sample.texts Cmd.stat_texts
                      (Sample.private 42 "/stat foo bar")
                      Sample2.registered_two_words))
     = [ "https://faceitanalyser.com/static/levels/10.svg";
         "https://faceitanalyser.com/static/flags/kz.svg";
         "https://cdn.example/avatar.png";
         stats_url "foo";
         stats_url "foo bar" ].
Proof.
  split; [|split; reflexivity].
  apply (stat_uses_registered_nickname _ _ _ _ _ _ (user 42 "s1mple" 100));
    [unfold int64; cbn; lia|reflexivity..].
Defined.

(** X20. [/stat] only reads: whatever it is given and whatever happens,
    the rows of [users] and the registration flags are as before and no
    connection is left open. *)
Theorem stat_command_only_reads w c t m s :
  users (snd (Cmd.handle_stat_command w c t m s)) = users s
  /\ user_registration_data (snd (Cmd.handle_stat_command w c t m s))
     = user_registration_data s
  /\ open_connections (snd (Cmd.handle_stat_command w c t m s))
     = open_connections s.
Proof.
  unfold Cmd.handle_stat_command. run_M.
  destruct (1 <? length (Cmd.split (Bot.text m)))%nat;
    [|pose proof (get_faceit_nickname_from_db_frame w (Bot.from_user_id m) s)
        as Hl;
      destruct (Bot.get_faceit_nickname_from_db w (Bot.from_user_id m) s)
        as [[[nickname|]|e] sl];
      cbn [snd] in Hl; subst sl; [|done..]].
  all: match goal with
       | |- context [Bot.get_user_stat ?w0 ?n ?s0] =>
           pose proof (get_user_stat_frame w0 n s0) as Hf;
           destruct (Bot.get_user_stat w0 n s0) as [[[data|]|e] sa];
           cbn [fst snd] in *; subst sa; try done;
           destruct (generate_player_card_frame w0 data
                       (log_request (stats_url n) s0))
             as (Hu & _ & Hr & Hc);
           destruct (generate_player_card w0 data _) as [[img|e] sb];
           cbn [fst snd] in *; cbn; rewrite Hu, Hr, Hc; done
       end.
Qed.

(** ** Creating the database *)



(** ** Extracted strings are trimmed *)

Lemma lstrip_cases s :
  lstrip s = EmptyString
  \/ exists c r, lstrip s = String c r /\ isspace c = false.
Proof.
  induction s as [|c r IH]; [left; reflexivity|].
  cbn [lstrip]. destruct (isspace c) eqn:Hc; [exact IH|].
  right. exists c, r. done.
Qed.

Lemma rstrip_keeps_head c r :
  isspace c = false -> exists r', rstrip (String c r) = String c r'.
Proof.
  intros Hc. cbn [rstrip]. destruct (rstrip r); [rewrite Hc|]; eauto.
Qed.

Lemma rstrip_idem s : rstrip (rstrip s) = rstrip s.
Proof.
  induction s as [|c r IH]; [reflexivity|].
  cbn [rstrip]. destruct (rstrip r) as [|d r'] eqn:Hr.
  - destruct (isspace c) eqn:Hc; [reflexivity|]. cbn [rstrip].
    rewrite Hc. reflexivity.
  - cbn [rstrip]. cbn [rstrip] in IH. rewrite IH. reflexivity.
Qed.

Lemma strip_trimmed s : trimmed (strip s).
Proof.
  unfold trimmed, strip.
  destruct (lstrip_cases s) as [-> | (c & r & -> & Hc)]; [reflexivity|].
  destruct (rstrip_keeps_head c r Hc) as [r' Hr].
  assert (Hfix : rstrip (String c r') = String c r')
    by (rewrite <- Hr; apply rstrip_idem).
  rewrite Hr. cbn [lstrip]. rewrite Hc. exact Hfix.
Qed.

(** A trimmed string that is not empty starts with a character that is no
    blank and is left alone by [rstrip]. *)
Lemma trimmed_nonempty s :
  trimmed s -> s <> EmptyString ->
  (exists c r, s = String c r /\ isspace c = false) /\ rstrip s = s.
Proof.
  unfold trimmed, strip. intros Hs Hne.
  destruct (lstrip_cases s) as [Hl | (c & r & Hl & Hc)].
  - rewrite Hl in Hs. cbn in Hs. congruence.
  - destruct (rstrip_keeps_head c r Hc) as [r' Hr].
    rewrite Hl, Hr in Hs. subst s. split; [eauto|].
    rewrite <- Hr. apply rstrip_idem.
Qed.

Lemma rstrip_app a b :
  rstrip b = b -> b <> EmptyString -> rstrip (a ++ b) = (a ++ b)%string.
Proof.
  intros Hb Hne. induction a as [|c a IH]; [exact Hb|].
  change (String c a ++ b)%string with (String c (a ++ b)%string).
  cbn [rstrip]. rewrite IH.
  assert (Hab : (a ++ b)%string <> EmptyString).
  { destruct a; [exact Hne|discriminate]. }
  destruct (a ++ b)%string; [congruence|reflexivity].
Qed.

Lemma concat_trimmed (l : list string) :
  Forall (fun p => p <> EmptyString /\ trimmed p) l ->
  trimmed (String.concat "" l)
  /\ (l <> [] -> String.concat "" l <> EmptyString).
Proof.
  induction 1 as [|p l [Hne Ht] Hl [IHt IHne]].
  - split; [reflexivity|congruence].
  - destruct l as [|q l].
    + cbn [String.concat]. split; [exact Ht|intros _; exact Hne].
    + change (String.concat "" (p :: q :: l))
        with (p ++ String.concat "" (q :: l))%string.
      destruct (trimmed_nonempty p Ht Hne) as [(c & r & -> & Hc) _].
      assert (Hrest : String.concat "" (q :: l) <> EmptyString)
        by (apply IHne; discriminate).
      destruct (trimmed_nonempty _ IHt Hrest) as [_ Hr].
      split; [|discriminate].
      unfold trimmed, strip.
      assert (Hl' : lstrip (String c r ++ String.concat "" (q :: l))
                    = (String c r ++ String.concat "" (q :: l))%string).
      { change (String c r ++ String.concat "" (q :: l))%string
          with (String c (r ++ String.concat "" (q :: l))%string).
        cbn [lstrip]. rewrite Hc. reflexivity. }
      rewrite Hl'. apply rstrip_app; assumption.
Qed.

Lemma get_text_strip_trimmed n : trimmed (Bs4.get_text_strip n).
Proof.
  unfold Bs4.get_text_strip. apply concat_trimmed.
  induction (flat_map Bs4.text_of (Bs4.descendants n)) as [|p l IH];
    [constructor|].
  cbn [map List.filter]. destruct (truthy (strip p)) eqn:Hp; [|exact IH].
  constructor; [|exact IH]. split; [|apply strip_trimmed].
  intros H. rewrite H in Hp. discriminate.
Qed.

Lemma parse_block_trimmed blk : block_trimmed (parse_block blk).
Proof.
  unfold block_trimmed, parse_block. cbn [title main_value items].
  split; [|split].
  - intros t. destruct (Bs4.find _ _ blk); cbn; [|discriminate].
    intros [= <-]. apply get_text_strip_trimmed.
  - intros v. destruct (Bs4.find _ _ blk); cbn; [|discriminate].
    intros [= <-]. apply get_text_strip_trimmed.
  - induction (combine _ _) as [|[ts vs] l IH]; [constructor|].
    cbn [map]. constructor; [|exact IH].
    split; apply get_text_strip_trimmed.
Qed.

(** X22. Every string [parse_faceitanalyser] puts in a record is trimmed:
    the name, the ELO, and the title, main value and item texts of every
    block start and end with a character that is no blank, or are empty. *)
Theorem extracted_strings_are_trimmed w html r :
  parse_faceitanalyser w html = Ok (Some r) ->
  trimmed (name r) /\ trimmed (elo r)
  /\ Forall block_trimmed (view1_stats r)
  /\ Forall block_trimmed (view2_stats r).
Proof.
  unfold parse_faceitanalyser.
  destruct (html_parser w html) as [soup|e]; [cbn|discriminate].
  destruct (Bs4.find "span" "stats_profile_name_span" _); [|discriminate].
  destruct (Bs4.find "span" "stats_profile_elo_span" _); [|discriminate].
  destruct (Bs4.find_by_id "div" "view1_stats" _); [|discriminate].
  destruct (Bs4.find_by_id "div" "view2_stats" _); [|discriminate].
  cbn. intros [= <-]. cbn [name elo view1_stats view2_stats].
  split; [apply get_text_strip_trimmed|].
  split; [apply get_text_strip_trimmed|].
  unfold parse_view_stats_div.
  split; apply List.Forall_map, List.Forall_forall; intros blk _;
    apply parse_block_trimmed.
Qed.

(** On the sample page the span reads " 49 " and the block holds "49". *)
Lemma extracted_strings_are_trimmed_witness :
  exists r,
    parse_faceitanalyser (Sample.online Sample.page 0) "<html>" = Ok (Some r)
    /\ trimmed (name r)
    /\ Forall block_trimmed (view1_stats r)
    /\ (main_value <$> head (view1_stats r)) = Some (Some "49").
Proof.
  eexists. split; [reflexivity|].
  destruct (extracted_strings_are_trimmed (Sample.online Sample.page 0)
              "<html>" _ eq_refl) as (Hn & _ & Hv & _).
  split; [exact Hn|]. split; [exact Hv|]. reflexivity.
Defined.

(** ** From the dialogue to the lookup *)

(** X23. The nickname a registration stores is the text of the message
    without the blanks around it: once [register_user] has returned a
    record inside [handle_registration_input], the lookup of that user
    answers the stripped text, whether or not the card could then be
    drawn. *)
Theorem registration_stores_stripped_text w w' c m s data :
  fst (Bot.register_user w (Bot.from_user_id m) (strip (Bot.text m)) s)
  = Ok (Some data) ->
  sqlite_fails w' Connect = false ->
  sqlite_fails w' ExecuteSelect = false ->
  fst (Bot.get_faceit_nickname_from_db w' (Bot.from_user_id m)
         (snd (Bot.handle_registration_input w c m s)))
  = Ok (Some (strip (Bot.text m)))
  /\ trimmed (strip (Bot.text m)).
Proof.
  intros Hreg Hc He. split; [|apply strip_trimmed].
  pose proof (register_user_record_int64 _ _ _ _ _ Hreg) as Hid.
  rewrite lookup_reads_row by assumption. cbn [fst].
  enough (Hu : users (snd (Bot.handle_registration_input w c m s))
               = upsert (current_timestamp w) (Bot.from_user_id m)
                   (strip (Bot.text m)) (users s))
    by (rewrite Hu, upsert_head; reflexivity).
  unfold Bot.handle_registration_input. run_M.
  destruct (register_user_cases w (Bot.from_user_id m) (strip (Bot.text m)) s)
    as [[Hno _] | [st Hst]]; [destruct (Hno data Hreg)|].
  rewrite Hst.
  match goal with
  | |- context [generate_player_card w st ?s0] =>
      destruct (generate_player_card_frame w st s0) as (Hu & _);
      destruct (generate_player_card w st s0) as [[img|e] sb]
  end; cbn [fst snd] in *; unfold Bot.send_high_quality_photo; run_M;
    cbn; rewrite Hu; reflexivity.
Qed.

(** User 42 answers "  s1mple " and is found as "s1mple". *)
Lemma registration_stores_stripped_text_witness :
  fst (Bot.get_faceit_nickname_from_db (Sample.online Sample.page 0) 42
         (snd (Bot.handle_registration_input (Sample.online Sample.page 100)
                 Sample.texts (Sample.private 42 "  s1mple ")
                 (Sample.awaiting 42))))
  = Ok (Some "s1mple").
Proof.
  exact (proj1 (registration_stores_stripped_text
                  (Sample.online Sample.page 100) (Sample.online Sample.page 0)
                  Sample.texts (Sample.private 42 "  s1mple ")
                  (Sample.awaiting 42) _ eq_refl eq_refl eq_refl)).
Defined.

(** ** The models at work *)

Example parse_sample_page :
  parse_faceitanalyser (Sample.online Sample.page 0) "<html>"
  = Ok (Some
      {| avatar_url := Some "https://cdn.example/avatar.png";
         flag_url := Some "https://faceitanalyser.com/static/flags/kz.svg";
         level_url := Some "https://faceitanalyser.com/static/levels/10.svg";
         name := "s1mple";
         elo := "3021 ELO";
         view1_stats :=
           [ {| title := Some "Winrate";
                main_value := Some "49";
                items := [ {| item_title := "Matches";
                              item_value := "120" |};
                           {| item_title := "Wins";
                              item_value := "59" |} ] |} ];
         view2_stats := [] |}).
Proof. reflexivity. Qed.

Example parse_unknown_player :
  parse_faceitanalyser (Sample.online Sample.page_not_found 0) "<html>"
  = Ok None.
Proof. reflexivity. Qed.

Example lookup_without_database :
  Bot.get_faceit_nickname_from_db (Sample.no_database Sample.page) 42
    Sample.fresh = (Ok None, Sample.fresh).
Proof. reflexivity. Qed.

Example float_tenth :
  PyFloat.parse " 0.1 " = Some (S754_finite false 7205759403792794 (-56)).
Proof. vm_compute. reflexivity. Qed.

Example float_rounds_to_one :
  PyFloat.parse "0.99999999999999999999" = Some (PyFloat.of_int 1)
  /\ below "0.99999999999999999999" 1 = false
  /\ below "0.9999999999999999" 1 = true.
Proof. vm_compute. done. Qed.

Example float_exponent_and_underscore :
  PyFloat.parse "-1_0.5E+1" = Some (PyFloat.of_int (-105)).
Proof. vm_compute. reflexivity. Qed.

Example float_rejects :
  PyFloat.parse "1e" = None /\ PyFloat.parse "55%" = None
  /\ PyFloat.parse "." = None /\ PyFloat.parse "1__0" = None
  /\ PyFloat.parse "" = None.
Proof. vm_compute. done. Qed.

(** The file separator, byte 28, is a blank for [str.strip] and none for
    [float]; the tab is one for both. *)
Example float_blanks :
  strip (String (ascii_of_nat 28) "49") = "49"
  /\ PyFloat.parse (String (ascii_of_nat 28) "49") = None
  /\ PyFloat.parse (String (ascii_of_nat 9) "49 ") = Some (PyFloat.of_int 49).
Proof. vm_compute. done. Qed.

Example float_specials :
  PyFloat.parse "-Infinity" = Some (S754_infinity true)
  /\ PyFloat.parse "NaN" = Some S754_nan
  /\ PyFloat.parse "1e400" = Some (S754_infinity false)
  /\ PyFloat.parse "5e-324" = Some (S754_finite false 1 (-1074)).
Proof. vm_compute. done. Qed.
